(** * samba-server-autosetup: the timed prompts and the fallback cascades

    A shallow embedding of [src/main.py] (class [SMBServerSetup]).  The
    script is a sequence of calls to operating-system primitives; the
    embedding keeps that shape: every method is a computation in a small
    state-and-exception monad over the fields of [self] and the observable
    part of the machine (console, clock, file system), and every answer of
    the outside world (a spawned command, a wait on stdin) is read from an
    oracle of the host. *)

From Stdlib Require Import ZArith String Ascii List Lia Bool.
From stdpp Require Import base option list strings pretty gmap.

Open Scope string_scope.
Open Scope Z_scope.

(** ** Python strings

    A Python [str] is modelled as a [string] whose characters stand for the
    code points below 256.  The functions below follow the CPython
    semantics of the [str] methods the script calls, on that range. *)

Module Py.

Definition code (c : ascii) : N := N_of_ascii c.

(** [str.isspace] for one character: the code points below 256 with the
    White_Space property or a bidirectional type of B, S or WS. *)
Definition isspace (c : ascii) : bool :=
  let n := code c in
  ((9 <=? n) && (n <=? 13) || (28 <=? n) && (n <=? 32)
   || (n =? 133) || (n =? 160))%N.

(** [str.isdigit] for one character: the decimal digits and the three
    superscript digits of Latin-1. *)
Definition isdigit (c : ascii) : bool :=
  let n := code c in
  ((48 <=? n) && (n <=? 57) || (n =? 178) || (n =? 179) || (n =? 185))%N.

Fixpoint lstrip (s : string) : string :=
  match s with
  | String c s' => if isspace c then lstrip s' else s
  | EmptyString => EmptyString
  end.

(** [rstrip] keeps a character when it is not a space or when something
    is kept after it. *)
Fixpoint rstrip (s : string) : string :=
  match s with
  | String c s' =>
      match rstrip s' with
      | EmptyString => if isspace c then EmptyString else String c EmptyString
      | r => String c r
      end
  | EmptyString => EmptyString
  end.

(** [s.strip()] *)
Definition strip (s : string) : string := rstrip (lstrip s).

(** Truth value of a [str]: non-empty. *)
Definition truthy (s : string) : bool :=
  match s with EmptyString => false | String _ _ => true end.

(** [s.split(sep)] for a one-character separator: the result always has
    at least one field, and empty fields are kept. *)
Fixpoint split_on (sep : ascii) (s : string) : list string :=
  match s with
  | EmptyString => [EmptyString]
  | String c s' =>
      if Ascii.eqb c sep then EmptyString :: split_on sep s'
      else match split_on sep s' with
           | w :: ws => String c w :: ws
           | [] => [String c EmptyString]
           end
  end.

(** [s.split()]: fields separated by runs of white space, no empty
    field.  [cur] is the field being read, in reading order. *)
Fixpoint split_ws_from (cur : string) (s : string) : list string :=
  match s with
  | EmptyString => if truthy cur then [cur] else []
  | String c s' =>
      if isspace c
      then (if truthy cur then cur :: split_ws_from EmptyString s'
            else split_ws_from EmptyString s')
      else split_ws_from (cur ++ String c EmptyString) s'
  end.

Definition split_ws (s : string) : list string := split_ws_from EmptyString s.

(** [s.startswith(p)] *)
Definition startswith (p s : string) : bool := String.prefix p s.

(** [c in s] for a one-character [c]. *)
Fixpoint has_char (c : ascii) (s : string) : bool :=
  match s with
  | EmptyString => false
  | String d s' => Ascii.eqb c d || has_char c s'
  end.

(** [sub in s] *)
Fixpoint contains (sub s : string) : bool :=
  String.prefix sub s
  || match s with
     | EmptyString => false
     | String _ s' => contains sub s'
     end.

(** [str(n)] for a non-negative integer. *)
Definition str_of_nat (n : nat) : string := pretty n.

(** *** [int(s)]

    CPython's [PyLong_FromString] in base 10: optional white space, an
    optional sign, decimal digits in which single underscores may stand
    between two digits, optional white space, end of string.  Before
    that the non-ASCII white space is turned into a blank; the white
    space skipped here is the C one (9 to 13 and 32), so the separators
    28 to 31 are not accepted. *)

Definition int_space (c : ascii) : bool :=
  let n := code c in
  ((9 <=? n) && (n <=? 13) || (n =? 32) || (n =? 133) || (n =? 160))%N.

Definition digit_value (c : ascii) : option Z :=
  let n := code c in
  if ((48 <=? n) && (n <=? 57))%N then Some (Z.of_N n - 48) else None.

Fixpoint int_lskip (s : string) : string :=
  match s with
  | String c s' => if int_space c then int_lskip s' else s
  | EmptyString => EmptyString
  end.

Fixpoint all_int_space (s : string) : bool :=
  match s with
  | EmptyString => true
  | String c s' => int_space c && all_int_space s'
  end.

(** The digit scan: [acc] is the value read so far, [count] the number
    of digits read, [prev_us] tells that the previous character was an
    underscore.  The scan stops at the first character that is neither
    a digit nor an underscore and returns what is left. *)
Fixpoint int_digits (acc : Z) (count : nat) (prev_us : bool) (s : string)
  : option (Z * nat * string) :=
  match s with
  | EmptyString => if prev_us then None else Some (acc, count, EmptyString)
  | String c s' =>
      match digit_value c with
      | Some d => int_digits (10 * acc + d) (S count) false s'
      | None =>
          if Ascii.eqb c "_"
          then (if prev_us then None else int_digits acc count true s')
          else if prev_us then None else Some (acc, count, s)
      end
  end.

(** [max_str_digits] is [sys.get_int_max_str_digits()]: 0 switches the
    limit off, the default of the recent interpreters is 4300.  [None]
    stands for [ValueError]. *)
Definition int (max_str_digits : nat) (s : string) : option Z :=
  let s1 := int_lskip s in
  let '(neg, s2) :=
    match s1 with
    | String "+" r => (false, r)
    | String "-" r => (true, r)
    | _ => (false, s1)
    end in
  match s2 with
  | String "_" _ => None
  | _ =>
      match int_digits 0 0 false s2 with
      | Some (v, count, rest) =>
          if (count =? 0)%nat then None
          else if negb (all_int_space rest) then None
          else if ((0 <? max_str_digits) && (max_str_digits <? count))%nat
               then None
               else Some (if neg then - v else v)
      | None => None
      end
  end.

End Py.

(** ** The machine

    [self] is the [SMBServerSetup] object; the other fields are what the
    script can observe or change of the outside world.  Python raises and
    catches exceptions: a computation ends in a value, in an exception, or
    runs out of the iteration budget given to a [while] loop. *)

Inductive exn : Type :=
| CalledProcessError
| FileNotFoundError
| PermissionError
| ValueError
| UnicodeDecodeError            (* a subclass of [ValueError] *)
| IndexError
| KeyboardInterrupt
| EOFError
| SystemExit (code : Z).

(** [except Exception] catches everything but the two that derive from
    [BaseException] only. *)
Definition is_Exception (e : exn) : bool :=
  match e with
  | KeyboardInterrupt | SystemExit _ => false
  | _ => true
  end.

Definition is_CalledProcessError (e : exn) : bool :=
  match e with CalledProcessError => true | _ => false end.

Inductive outcome (A : Type) : Type :=
| Ret (a : A)
| Raise (e : exn)
| Diverge.
Arguments Ret {A} a.
Arguments Raise {A} e.
Arguments Diverge {A}.

(** The object: the fields set by [__init__] (lines 21-30). *)
Record SMBServerSetup : Type := {
  share_path : string;
  share_name : string;
  samba_config : string;
  backup_config : string;
  bind_interfaces : option string;
  bind_interface_name : option string;
  debug_mode : bool;
  smb_min_protocol : string;
  smb_max_protocol : string;
}.

Definition NETWORK_PATH : string := "/srv/shared".

(** [SMBServerSetup(share_path, debug_mode)]; [share_path or NETWORK_PATH]
    takes the default for [None] and for the empty string. *)
Definition init (path : option string) (debug : bool) : SMBServerSetup :=
  {| share_path := match path with
                   | Some p => if Py.truthy p then p else NETWORK_PATH
                   | None => NETWORK_PATH
                   end;
     share_name := "shared";
     samba_config := "/etc/samba/smb.conf";
     backup_config := "/etc/samba/smb.conf.backup";
     bind_interfaces := None;
     bind_interface_name := None;
     debug_mode := debug;
     smb_min_protocol := "NT1";
     smb_max_protocol := "SMB3" |}.

(** One entry of a menu of [select_network_binding] (lines 140-145). *)
Record choice_option : Type := {
  key : string;
  description : string;
  value : string;
}.

(** The reports of the script: one constructor for each [print] that tells
    which path was taken.  Banners, menus and the countdown prompt are not
    recorded. *)
Inductive message : Type :=
| NoInterfacesDetected
| InterfaceInterrupted
| InterfaceTimeout
| InterfaceSelected (description : string)
| InterfaceInvalidChoice (user_input : string)
| InterfaceInvalidInput (user_input : string)
| InterfaceAutoSelected (description : string)
| WillBindTo (name ip : option string)
| SmbInterrupted
| SmbTimeout
| SmbSelected (name : string)
| SmbInvalidChoice (user_input : string)
| SmbInvalidInput (user_input : string)
| SmbConfiguration (min_protocol max_protocol : string)
| BackingUp
| BackupCreated (path : string)
| BackupFailed
| BackupExists
| DetectedOs (kind : string)
| UnknownOs
| FoundNobody (user group : string)
| NobodyNotFound
| NobodyFallback (user group : string)
| NobodyUltimateFallback
| FoundServices (smb : string) (nmb : option string)
| TryingAlternativeDetection
| DefaultServices
| FirewallReport (text : string).

Record machine : Type := {
  self : SMBServerSetup;
  spawned : nat;                 (* commands started so far *)
  waited : nat;                  (* one-second waits so far *)
  clock : Z;                     (* time.time(), in milliseconds *)
  files : gmap string string;    (* path to content *)
  console : list message;        (* oldest first *)
}.

Definition with_self (f : SMBServerSetup -> SMBServerSetup) (m : machine) : machine :=
  {| self := f (self m); spawned := spawned m; waited := waited m;
     clock := clock m; files := files m; console := console m |}.

Definition with_spawned (n : nat) (m : machine) : machine :=
  {| self := self m; spawned := n; waited := waited m;
     clock := clock m; files := files m; console := console m |}.

Definition with_wait (n : nat) (t : Z) (m : machine) : machine :=
  {| self := self m; spawned := spawned m; waited := n;
     clock := t; files := files m; console := console m |}.

Definition with_files (fs : gmap string string) (m : machine) : machine :=
  {| self := self m; spawned := spawned m; waited := waited m;
     clock := clock m; files := fs; console := console m |}.

Definition with_console (out : list message) (m : machine) : machine :=
  {| self := self m; spawned := spawned m; waited := waited m;
     clock := clock m; files := files m; console := out |}.

(** A machine as the script finds it: a fresh object and nothing printed. *)
Definition boot (fs : gmap string string) : machine :=
  {| self := init None false; spawned := 0; waited := 0; clock := 0;
     files := fs; console := [] |}.

(** *** The host

    What the outside world answers.  [spawn n cmd] is the fate of the
    command [cmd] when it is the [n]-th command the script starts;
    [waits n] is what happens during the [n]-th one-second wait. *)

(** What [subprocess.run] returns. *)
Record CompletedProcess : Type := {
  returncode : Z;
  stdout : string;
}.

Inductive completed : Type :=
| Exited (p : CompletedProcess)
| NoSuchCommand.                (* the executable is not on the PATH *)

Inductive signal : Type := Sig_KeyboardInterrupt | Sig_EOFError.

Definition exn_of_signal (s : signal) : exn :=
  match s with
  | Sig_KeyboardInterrupt => KeyboardInterrupt
  | Sig_EOFError => EOFError
  end.

(** The end of the input is a line that is ready and empty: [readline]
    returns the empty string and raises nothing ([Typed EmptyString]).
    [Sig_EOFError] stands for the second class the handlers of the prompts
    name. *)
Inductive wait_event : Type :=
| Quiet (lag : N)               (* nothing for a second, and [lag] ms more *)
| Typed (raw : string)          (* a line is ready: what [readline] returns *)
| Undecodable                   (* a line is ready: [readline] cannot decode it *)
| Interrupted (s : signal).     (* the wait raises *)

Record host : Type := {
  has_select : bool;             (* hasattr(select, 'select') *)
  waits : nat -> wait_event;
  spawn : nat -> list string -> completed;
  getenv : string -> option string;
  (* [shutil.copy2 src dst] fails, leaving this at [dst] *)
  copy2_fault : string -> string -> option (option string);
  max_str_digits : nat;          (* sys.get_int_max_str_digits() *)
}.

(** *** The monad *)

Definition M (A : Type) : Type := machine -> outcome A * machine.

Definition ret {A} (a : A) : M A := fun m => (Ret a, m).

Definition bind {A B} (c : M A) (k : A -> M B) : M B :=
  fun m =>
    match c m with
    | (Ret a, m') => k a m'
    | (Raise e, m') => (Raise e, m')
    | (Diverge, m') => (Diverge, m')
    end.

Definition raise {A} (e : exn) : M A := fun m => (Raise e, m).

Definition diverge {A} : M A := fun m => (Diverge, m).

Declare Scope py_scope.
Delimit Scope py_scope with py.
Notation "x <- c ;; k" := (bind c (fun x => k))
  (at level 100, c at next level, right associativity) : py_scope.
Notation "c ;;; k" := (bind c (fun _ => k))
  (at level 100, right associativity) : py_scope.
Open Scope py_scope.

(** [try: c except <catches>: handler] *)
Definition try_except {A} (c : M A) (catches : exn -> bool) (handler : M A) : M A :=
  fun m =>
    match c m with
    | (Raise e, m') => if catches e then handler m' else (Raise e, m')
    | r => r
    end.

Definition print (msg : message) : M unit :=
  fun m => (Ret tt, with_console (console m ++ [msg]) m).

Definition get_self : M SMBServerSetup := fun m => (Ret (self m), m).

Definition set_self (f : SMBServerSetup -> SMBServerSetup) : M unit :=
  fun m => (Ret tt, with_self f m).

(** [sys.exit(code)] *)
Definition sys_exit {A} (code : Z) : M A := raise (SystemExit code).

(** Loop control: the body of a loop either leaves the loop with the value
    the code has then, or goes on with the next iteration. *)
Inductive ctl (A : Type) : Type := Break (a : A) | Continue.
Arguments Break {A} a.
Arguments Continue {A}.

(** [for x in xs: body  else: orelse] *)
Fixpoint for_else {X A} (xs : list X) (body : X -> M (ctl A)) (orelse : M A) : M A :=
  match xs with
  | [] => orelse
  | x :: xs' =>
      r <- body x ;;
      match r with
      | Break a => ret a
      | Continue => for_else xs' body orelse
      end
  end.

(** [while cond: body  else: orelse], with a budget of iterations. *)
Fixpoint while_else {A} (fuel : nat) (cond : M bool) (body : M (ctl A))
  (orelse : M A) : M A :=
  c <- cond ;;
  if c : bool then
    match fuel with
    | O => diverge
    | S fuel' =>
        r <- body ;;
        match r with
        | Break a => ret a
        | Continue => while_else fuel' cond body orelse
        end
    end
  else orelse.

(** [range(n, 0, -1)] *)
Definition range_down (n : nat) : list nat := rev (seq 1 n).

(** [xs[i]] for a non-negative [i] *)
Definition index {A} (xs : list A) (i : Z) : M A :=
  match xs !! Z.to_nat i with
  | Some x => ret x
  | None => raise IndexError
  end.

(** One detected interface: the dictionaries built at lines 81-85 and
    95-99. *)
Record interface : Type := {
  name : string;
  ip : string;
  cidr : string;
}.

(** One protocol choice (lines 239-264); the three texts that are only
    displayed are left out. *)
Record smb_option : Type := {
  smb_name : string;
  min_protocol : string;
  max_protocol : string;
}.

Definition smb_options : list smb_option :=
  [ {| smb_name := "SMBv1 (NT1)"; min_protocol := "NT1"; max_protocol := "SMB3" |};
    {| smb_name := "SMBv2"; min_protocol := "SMB2"; max_protocol := "SMB3" |};
    {| smb_name := "SMBv3 Only"; min_protocol := "SMB3"; max_protocol := "SMB3" |} ].

(** Truth value of a field that holds [None] or a [str]. *)
Definition truthy_opt (o : option string) : bool :=
  match o with
  | Some s => Py.truthy s
  | None => false
  end.

(** The body of the loop over the lines of [ip -4 addr show] (lines
    63-85): [current_interface] and [interfaces] are the two variables the
    loop updates. *)
Definition scan_ip_line (acc : option string * list interface) (raw : string)
  : option string * list interface :=
  let '(current_interface, interfaces) := acc in
  let line := Py.strip raw in
  let starts_with_digit :=
    match line with
    | String c _ => Py.isdigit c
    | EmptyString => false
    end in
  if Py.truthy line && starts_with_digit && Py.has_char ":" line then
    match Py.split_on ":" line with
    | _ :: p1 :: _ => (Some (Py.strip p1), interfaces)      (* len(parts) >= 2 *)
    | _ => acc
    end
  else if Py.startswith "inet " line && truthy_opt current_interface then
    match Py.split_ws line with
    | _ :: ip_cidr :: _ =>                                   (* len(inet_parts) >= 2 *)
        let ip_addr := hd EmptyString (Py.split_on "/" ip_cidr) in
        if negb (Py.startswith "127." ip_addr)
        then (current_interface,
              (interfaces ++ [ {| name := default EmptyString current_interface;
                                  ip := ip_addr; cidr := ip_cidr |} ])%list)
        else acc
    | _ => acc
    end
  else acc.

Definition parse_ip_addr (out : string) : list interface :=
  snd (fold_left scan_ip_line (Py.split_on "010" out) (None, [])).

(** The fallback loop over the words of [hostname -I] (lines 92-99). *)
Definition parse_hostname (out : string) : list interface :=
  omap (fun '(i, ip) =>
          if negb (Py.startswith "127." ip)
          then Some {| name := "interface" +:+ Py.str_of_nat (i + 1);
                       ip := ip; cidr := ip +:+ "/24" |}
          else None)
       (imap (fun i ip => (i, ip)) (Py.split_ws (Py.strip out))).

Section Script.

Variable h : host.

(** *** Primitives of the operating system *)

(** [subprocess.run(cmd, capture_output=True, text=True, check=check)] *)
Definition subprocess_run (cmd : list string) (check : bool) : M CompletedProcess :=
  fun m =>
    let m' := with_spawned (S (spawned m)) m in
    match spawn h (spawned m) cmd with
    | NoSuchCommand => (Raise FileNotFoundError, m')
    | Exited p =>
        if check && negb (returncode p =? 0)
        then (Raise CalledProcessError, m')
        else (Ret p, m')
    end.

(** [ready, _, _ = select.select([sys.stdin], [], [], 1)] followed, when
    ready, by [sys.stdin.readline()]: [Some raw] is a ready stdin and the
    line read from it, [None] is the timeout of the select.  A line whose
    bytes are not text in the encoding of stdin makes [readline] raise
    [UnicodeDecodeError]. *)
Definition select_stdin : M (option string) :=
  fun m =>
    let n := S (waited m) in
    match waits h (waited m) with
    | Quiet lag => (Ret None, with_wait n (clock m + 1000 + Z.of_N lag) m)
    | Typed raw => (Ret (Some raw), with_wait n (clock m) m)
    | Undecodable => (Raise UnicodeDecodeError, with_wait n (clock m) m)
    | Interrupted s => (Raise (exn_of_signal s), with_wait n (clock m) m)
    end.

(** [time.sleep(1)]: stdin is not looked at. *)
Definition time_sleep : M unit :=
  fun m =>
    let n := S (waited m) in
    match waits h (waited m) with
    | Quiet lag => (Ret tt, with_wait n (clock m + 1000 + Z.of_N lag) m)
    | Typed _ | Undecodable => (Ret tt, with_wait n (clock m + 1000) m)
    | Interrupted s => (Raise (exn_of_signal s), with_wait n (clock m) m)
    end.

(** [time.time()], in milliseconds *)
Definition time_time : M Z := fun m => (Ret (clock m), m).

(** [os.path.exists(path)] *)
Definition os_path_exists (path : string) : M bool :=
  fun m => (Ret (bool_decide (is_Some (files m !! path))), m).

(** [shutil.copy2(src, dst)] *)
Definition shutil_copy2 (src dst : string) : M unit :=
  fun m =>
    match files m !! src with
    | None => (Raise FileNotFoundError, m)
    | Some data =>
        match copy2_fault h src dst with
        | None => (Ret tt, with_files (<[dst := data]> (files m)) m)
        | Some None => (Raise PermissionError, m)
        | Some (Some part) =>
            (Raise PermissionError, with_files (<[dst := part]> (files m)) m)
        end
    end.

(** *** [get_network_interfaces] (lines 53-103)

    [interfaces] is still empty when one of the two commands raises
    [CalledProcessError], so the handlers start from the empty list. *)
Definition get_network_interfaces : M (list interface) :=
  try_except
    (result <- subprocess_run ["ip"; "-4"; "addr"; "show"] true ;;
     ret (parse_ip_addr (stdout result)))
    is_CalledProcessError
    (try_except
       (result <- subprocess_run ["hostname"; "-I"] true ;;
        ret (parse_hostname (stdout result)))
       is_CalledProcessError
       (ret [])).

(** *** [select_network_binding] (lines 122-231) *)

(** Lines 140-145: [enumerate(interfaces, 1)]. *)
Definition interface_options (interfaces : list interface) : list choice_option :=
  imap (fun i interface =>
          {| key := Py.str_of_nat (i + 1);
             description := "Bind to " +:+ name interface +:+ " ("
                            +:+ ip interface +:+ ")";
             value := ip interface |})
       interfaces.

Definition caught_by_prompt (e : exn) : bool :=
  match e with
  | KeyboardInterrupt | EOFError => true
  | _ => false
  end.

(** Lines 161-179: one turn of the countdown loop. *)
Definition interface_tick (remaining : nat) : M (ctl string) :=
  try_except
    (if has_select h then
       ready <- select_stdin ;;
       match ready with
       | Some raw =>
           let user_input := Py.strip raw in
           if Py.truthy user_input then ret (Break user_input)
           else ret Continue
       | None => ret Continue
       end
     else
       time_sleep ;;; ret Continue)
    caught_by_prompt
    (print InterfaceInterrupted ;;; ret (Break "1")).

(** Lines 157-183: the countdown; its value is [user_input] after the
    loop. *)
Definition interface_countdown : M string :=
  for_else (range_down 60) interface_tick
    (print InterfaceTimeout ;;; ret "1").

(** The lines that follow the choice of [selected_option], written three
    times in the source (190-199, 204-213, 218-227). *)
Definition bind_to (selected_option : choice_option) : M unit :=
  set_self (fun s =>
    {| share_path := share_path s; share_name := share_name s;
       samba_config := samba_config s; backup_config := backup_config s;
       bind_interfaces := Some (value selected_option);
       bind_interface_name := bind_interface_name s;
       debug_mode := debug_mode s;
       smb_min_protocol := smb_min_protocol s;
       smb_max_protocol := smb_max_protocol s |}) ;;;
  interfaces_data <- get_network_interfaces ;;
  match find (fun interface => String.eqb (ip interface) (value selected_option))
             interfaces_data with
  | Some interface =>
      set_self (fun s =>
        {| share_path := share_path s; share_name := share_name s;
           samba_config := samba_config s; backup_config := backup_config s;
           bind_interfaces := bind_interfaces s;
           bind_interface_name := Some (name interface);
           debug_mode := debug_mode s;
           smb_min_protocol := smb_min_protocol s;
           smb_max_protocol := smb_max_protocol s |})
  | None => ret tt
  end ;;;
  s <- get_self ;;
  if negb (truthy_opt (bind_interface_name s)) then
    set_self (fun s =>
      {| share_path := share_path s; share_name := share_name s;
         samba_config := samba_config s; backup_config := backup_config s;
         bind_interfaces := bind_interfaces s;
         bind_interface_name := Some "eth0";
         debug_mode := debug_mode s;
         smb_min_protocol := smb_min_protocol s;
         smb_max_protocol := smb_max_protocol s |})
  else ret tt.

(** [except (ValueError, IndexError)] *)
Definition caught_by_choice (e : exn) : bool :=
  match e with
  | ValueError | UnicodeDecodeError | IndexError => true
  | _ => false
  end.

(** [int(user_input)] *)
Definition int (user_input : string) : M Z :=
  match Py.int (max_str_digits h) user_input with
  | Some v => ret v
  | None => raise ValueError
  end.

(** Lines 185-228: from [user_input] to the bound interface. *)
Definition interface_choice (options : list choice_option) (user_input : string)
  : M unit :=
  try_except
    (v <- int user_input ;;
     let choice_index := v - 1 in
     if (0 <=? choice_index) && (choice_index <? Z.of_nat (length options))
     then
       selected_option <- index options choice_index ;;
       bind_to selected_option ;;;
       print (InterfaceSelected (description selected_option))
     else
       print (InterfaceInvalidChoice user_input) ;;;
       selected_option <- index options 0 ;;
       bind_to selected_option ;;;
       print (InterfaceAutoSelected (description selected_option)))
    caught_by_choice
    (print (InterfaceInvalidInput user_input) ;;;
     selected_option <- index options 0 ;;
     bind_to selected_option ;;;
     print (InterfaceAutoSelected (description selected_option))).

Definition select_network_binding : M unit :=
  interfaces <- get_network_interfaces ;;
  match interfaces with
  | [] => print NoInterfacesDetected ;;; sys_exit 1
  | _ =>
      let options := interface_options interfaces in
      user_input <- interface_countdown ;;
      interface_choice options user_input ;;;
      s <- get_self ;;
      print (WillBindTo (bind_interface_name s) (bind_interfaces s))
  end.

(** *** [select_smb_version] (lines 233-333) *)

(** [timeout = 60], in milliseconds. *)
Definition smb_timeout : Z := 60 * 1000.

(** An iteration that does not leave the loop lasts one second at least:
    sixty of them exhaust the timeout. *)
Definition smb_iterations : nat := 60.

(** Lines 286-306: one turn of the countdown loop. *)
Definition smb_tick : M (ctl string) :=
  try_except
    (if has_select h then
       ready <- select_stdin ;;
       match ready with
       | Some raw => ret (Break (Py.strip raw))
       | None => ret Continue
       end
     else
       time_sleep ;;; ret Continue)
    caught_by_prompt
    (print SmbInterrupted ;;; ret (Break "0")).

(** Lines 278-310: the countdown; its value is [user_input] after the
    loop. *)
(** Line 282: the test of the loop. *)
Definition smb_still_waiting (start_time : Z) : M bool :=
  now <- time_time ;; ret (now - start_time <? smb_timeout).

Definition smb_countdown (start_time : Z) : M string :=
  while_else smb_iterations
    (smb_still_waiting start_time)
    smb_tick
    (print SmbTimeout ;;; ret "0").

Definition set_protocols (lo hi : string) : M unit :=
  set_self (fun s =>
    {| share_path := share_path s; share_name := share_name s;
       samba_config := samba_config s; backup_config := backup_config s;
       bind_interfaces := bind_interfaces s;
       bind_interface_name := bind_interface_name s;
       debug_mode := debug_mode s;
       smb_min_protocol := lo;
       smb_max_protocol := hi |}).

(** [except ValueError] *)
Definition is_ValueError (e : exn) : bool :=
  match e with ValueError | UnicodeDecodeError => true | _ => false end.

(** Lines 313-330: from [user_input] to the protocols. *)
Definition smb_choice (user_input : string) : M unit :=
  try_except
    (choice_index <- (if Py.truthy user_input then int user_input else ret 0) ;;
     if (0 <=? choice_index) && (choice_index <? Z.of_nat (length smb_options))
     then
       selected_option <- index smb_options choice_index ;;
       set_protocols (min_protocol selected_option) (max_protocol selected_option) ;;;
       print (SmbSelected (smb_name selected_option))
     else
       print (SmbInvalidChoice user_input) ;;;
       set_protocols "NT1" "SMB3")
    is_ValueError
    (print (SmbInvalidInput user_input) ;;;
     set_protocols "NT1" "SMB3").

Definition select_smb_version : M unit :=
  start_time <- time_time ;;
  user_input <- smb_countdown start_time ;;
  smb_choice user_input ;;;
  s <- get_self ;;
  print (SmbConfiguration (smb_min_protocol s) (smb_max_protocol s)).

(** *** [backup_samba_config] (lines 464-476) *)

Definition backup_samba_config : M unit :=
  s <- get_self ;;
  config_exists <- os_path_exists (samba_config s) ;;
  if config_exists : bool then
    backup_exists <- os_path_exists (backup_config s) ;;
    if negb backup_exists then
      print BackingUp ;;;
      try_except
        (shutil_copy2 (samba_config s) (backup_config s) ;;;
         print (BackupCreated (backup_config s)))
        is_Exception
        (print BackupFailed ;;; sys_exit 1)
    else
      print BackupExists
  else
    ret tt.

(** *** [get_nobody_user_group] (lines 538-577)

    A [return] in the body of the loop leaves it with the value
    returned; what follows the loop in the source is run when the loop
    comes to its end. *)

Definition combinations : list (string * string) :=
  [ ("nobody", "nobody"); ("nobody", "nogroup"); ("nobody", "wheel");
    ("nfsnobody", "nfsnobody") ].

(** [os.getenv('SUDO_USER') or os.getenv('USER') or 'root'] *)
Definition current_user_name : string :=
  if truthy_opt (getenv h "SUDO_USER") then default EmptyString (getenv h "SUDO_USER")
  else if truthy_opt (getenv h "USER") then default EmptyString (getenv h "USER")
  else "root".

(** Lines 551-560: the body of the loop. *)
Definition nobody_probe (combination : string * string)
  : M (ctl (string * string)) :=
  let '(user, group) := combination in
  try_except
    (subprocess_run ["id"; user] true ;;;
     subprocess_run ["getent"; "group"; group] true ;;;
     print (FoundNobody user group) ;;;
     ret (Break (user, group)))
    is_CalledProcessError
    (ret Continue).

(** Lines 563-577: what follows the loop. *)
Definition nobody_terminal : M (string * string) :=
  print NobodyNotFound ;;;
  try_except
    (let current_user := current_user_name in
     result <- subprocess_run ["id"; "-gn"; current_user] true ;;
     let current_group := Py.strip (stdout result) in
     print (NobodyFallback current_user current_group) ;;;
     ret (current_user, current_group))
    is_Exception
    (print NobodyUltimateFallback ;;;
     ret ("root", "root")).

Definition get_nobody_user_group : M (string * string) :=
  for_else combinations nobody_probe nobody_terminal.

(** *** [get_samba_service_names] (lines 611-660) *)

Record service_names : Type := {
  smb : string;
  nmb : string;
}.

Definition service_combinations : list service_names :=
  [ {| smb := "smb"; nmb := "nmb" |};
    {| smb := "smbd"; nmb := "nmbd" |};
    {| smb := "samba"; nmb := "nmb" |};
    {| smb := "samba"; nmb := "winbind" |} ].

(** Lines 643-656: the second detection; [None] when it returns nothing
    and the function goes on to its last line. *)
Definition alternative_service_detection : M (option (string * option string)) :=
  try_except
    (result <- subprocess_run
                 ["systemctl"; "list-unit-files"; "*smb*"; "*samba*"] false ;;
     if Py.contains "smb.service" (stdout result) then
       print (FoundServices "smb" (Some "nmb")) ;;;
       ret (Some ("smb", Some "nmb"))
     else if Py.contains "smbd.service" (stdout result) then
       print (FoundServices "smbd" (Some "nmbd")) ;;;
       ret (Some ("smbd", Some "nmbd"))
     else if Py.contains "samba.service" (stdout result) then
       print (FoundServices "samba" None) ;;;
       ret (Some ("samba", None))
     else ret None)
    is_CalledProcessError
    (ret None).

(** Lines 625-637: the body of the loop. *)
Definition service_probe (services : service_names)
  : M (ctl (string * option string)) :=
  let smb_service := smb services in
  let nmb_service := nmb services in
  try_except
    (result <- subprocess_run
                 ["systemctl"; "list-unit-files"; smb_service +:+ ".service"]
                 false ;;
     if Py.contains (smb_service +:+ ".service") (stdout result) then
       print (FoundServices smb_service (Some nmb_service)) ;;;
       ret (Break (smb_service, Some nmb_service))
     else ret Continue)
    is_CalledProcessError
    (ret Continue).

(** Lines 640-660: what follows the loop. *)
Definition service_terminal : M (string * option string) :=
  print TryingAlternativeDetection ;;;
  found <- alternative_service_detection ;;
  match found with
  | Some names => ret names
  | None =>
      print DefaultServices ;;;
      ret ("smbd", Some "nmbd")
  end.

Definition get_samba_service_names : M (string * option string) :=
  for_else service_combinations service_probe service_terminal.

(** *** [detect_os] (lines 335-419) *)

Record os_info : Type := {
  os_type : string;
  update_cmd : list string;
  install_cmd : list string;
  package_manager : string;
}.

Definition os_apt (kind : string) : os_info :=
  {| os_type := kind; update_cmd := ["apt"; "update"];
     install_cmd := ["apt"; "install"; "-y"; "samba"]; package_manager := "apt" |}.

Definition os_dnf : os_info :=
  {| os_type := "redhat"; update_cmd := ["dnf"; "check-update"];
     install_cmd := ["dnf"; "install"; "-y"; "samba"]; package_manager := "dnf" |}.

Definition os_yum : os_info :=
  {| os_type := "redhat"; update_cmd := ["yum"; "check-update"];
     install_cmd := ["yum"; "install"; "-y"; "samba"]; package_manager := "yum" |}.

Definition os_pacman : os_info :=
  {| os_type := "arch"; update_cmd := ["pacman"; "-Sy"];
     install_cmd := ["pacman"; "-S"; "--noconfirm"; "samba"];
     package_manager := "pacman" |}.

Definition os_zypper : os_info :=
  {| os_type := "suse"; update_cmd := ["zypper"; "refresh"];
     install_cmd := ["zypper"; "install"; "-y"; "samba"];
     package_manager := "zypper" |}.

(** [a or b] on two tests *)
Definition or_else (a b : M bool) : M bool :=
  x <- a ;; if x : bool then ret true else b.

Definition detect_os : M os_info :=
  try_except
    (debian <- os_path_exists "/etc/debian_version" ;;
     if debian : bool then
       print (DetectedOs "debian") ;;; ret (os_apt "debian")
     else
       redhat <- or_else (os_path_exists "/etc/redhat-release")
                         (os_path_exists "/etc/fedora-release") ;;
       if redhat : bool then
         print (DetectedOs "redhat") ;;; ret os_dnf
       else
         centos <- os_path_exists "/etc/centos-release" ;;
         if centos : bool then
           try_except
             (subprocess_run ["which"; "dnf"] true ;;;
              print (DetectedOs "centos-dnf") ;;; ret os_dnf)
             is_CalledProcessError
             (print (DetectedOs "centos-yum") ;;; ret os_yum)
         else
           arch <- os_path_exists "/etc/arch-release" ;;
           if arch : bool then
             print (DetectedOs "arch") ;;; ret os_pacman
           else
             suse <- or_else (os_path_exists "/etc/SUSE-brand")
                             (os_path_exists "/etc/SuSE-release") ;;
             if suse : bool then
               print (DetectedOs "suse") ;;; ret os_zypper
             else
               print UnknownOs ;;; ret (os_apt "unknown"))
    is_Exception
    (print UnknownOs ;;; ret (os_apt "unknown")).

(** *** [configure_firewall] (lines 751-847)

    The function leaves by [return] from inside its three stages: a stage
    yields [Some b] when it returns [b] and [None] when the code goes on
    with what follows it. *)

(** [for x in xs: body] *)
Fixpoint for_each {X} (xs : list X) (body : X -> M unit) : M unit :=
  match xs with
  | [] => ret tt
  | x :: xs' => body x ;;; for_each xs' body
  end.

(** Lines 783-803: the body of the loop over the interfaces. *)
Definition firewalld_libvirt_zone (interface : interface) : M unit :=
  if Py.startswith "virbr" (name interface) || Py.startswith "libvirt" (name interface)
  then
    try_except
      (zone_result <- subprocess_run
           ["firewall-cmd"; "--get-zone-of-interface=" +:+ name interface] true ;;
       let zone := Py.strip (stdout zone_result) in
       if String.eqb zone "libvirt" then
         print (FirewallReport "found interface in libvirt zone") ;;;
         subprocess_run ["firewall-cmd"; "--zone=libvirt"; "--add-service=samba";
                         "--permanent"] true ;;;
         subprocess_run ["firewall-cmd"; "--zone=libvirt"; "--add-service=samba"] true ;;;
         subprocess_run ["firewall-cmd"; "--zone=libvirt"; "--add-port=445/tcp";
                         "--permanent"] true ;;;
         subprocess_run ["firewall-cmd"; "--zone=libvirt"; "--add-port=139/tcp";
                         "--permanent"] true ;;;
         subprocess_run ["firewall-cmd"; "--zone=libvirt"; "--add-port=445/tcp"] true ;;;
         subprocess_run ["firewall-cmd"; "--zone=libvirt"; "--add-port=139/tcp"] true ;;;
         print (FirewallReport "added samba to libvirt zone")
       else ret tt)
      is_CalledProcessError
      (ret tt)
  else ret tt.

Definition firewall_cmd_unavailable (e : exn) : bool :=
  match e with
  | CalledProcessError | FileNotFoundError => true
  | _ => false
  end.

(** Lines 763-812: the firewalld stage. *)
Definition configure_firewalld : M (option bool) :=
  try_except
    (result <- subprocess_run ["systemctl"; "is-active"; "firewalld"] false ;;
     if Py.contains "active" (stdout result) then
       print (FirewallReport "detected firewalld") ;;;
       available <-
         try_except
           (subprocess_run ["firewall-cmd"; "--version"] true ;;; ret true)
           firewall_cmd_unavailable
           (print (FirewallReport "firewall-cmd not available") ;;; ret false) ;;
       if available : bool then
         try_except
           (subprocess_run ["firewall-cmd"; "--add-service=samba"; "--permanent"] true ;;;
            subprocess_run ["firewall-cmd"; "--add-service=samba"] true ;;;
            network_interfaces <- get_network_interfaces ;;
            for_each network_interfaces firewalld_libvirt_zone ;;;
            subprocess_run ["firewall-cmd"; "--reload"] true ;;;
            print (FirewallReport "firewalld configured") ;;;
            ret (Some true))
           is_CalledProcessError
           (print (FirewallReport "failed to configure firewalld") ;;; ret None)
       else ret None
     else ret None)
    is_CalledProcessError
    (ret None).

(** Lines 815-825: the ufw stage. *)
Definition configure_ufw : M (option bool) :=
  try_except
    (subprocess_run ["which"; "ufw"] true ;;;
     print (FirewallReport "detected ufw") ;;;
     try_except
       (subprocess_run ["ufw"; "allow"; "samba"] true ;;;
        print (FirewallReport "ufw configured") ;;;
        ret (Some true))
       is_CalledProcessError
       (print (FirewallReport "failed to configure ufw") ;;; ret None))
    is_CalledProcessError
    (ret None).

(** Lines 828-843: the iptables stage. *)
Definition configure_iptables : M (option bool) :=
  try_except
    (subprocess_run ["which"; "iptables"] true ;;;
     print (FirewallReport "detected iptables") ;;;
     try_except
       (subprocess_run ["iptables"; "-A"; "INPUT"; "-p"; "tcp"; "--dport"; "445";
                        "-j"; "ACCEPT"] true ;;;
        subprocess_run ["iptables"; "-A"; "INPUT"; "-p"; "tcp"; "--dport"; "139";
                        "-j"; "ACCEPT"] true ;;;
        subprocess_run ["iptables"; "-A"; "INPUT"; "-p"; "udp"; "--dport"; "137";
                        "-j"; "ACCEPT"] true ;;;
        subprocess_run ["iptables"; "-A"; "INPUT"; "-p"; "udp"; "--dport"; "138";
                        "-j"; "ACCEPT"] true ;;;
        print (FirewallReport "iptables configured") ;;;
        ret (Some true))
       is_CalledProcessError
       (print (FirewallReport "failed to configure iptables") ;;; ret None))
    is_CalledProcessError
    (ret None).

Definition configure_firewall : M bool :=
  os <- detect_os ;;
  by_firewalld <-
    (if String.eqb (os_type os) "debian"
     then print (FirewallReport "debian: firewalld check skipped") ;;; ret None
     else configure_firewalld) ;;
  match by_firewalld with
  | Some b => ret b
  | None =>
      by_ufw <- configure_ufw ;;
      match by_ufw with
      | Some b => ret b
      | None =>
          by_iptables <- configure_iptables ;;
          match by_iptables with
          | Some b => ret b
          | None =>
              print (FirewallReport "no supported firewall") ;;;
              ret false
          end
      end
  end.

(** *** The first steps of [setup] that read the console (lines
    1411-1412). *)
Definition select_network_and_protocol : M unit :=
  select_network_binding ;;;
  select_smb_version.

End Script.

(** ** Vocabulary of the statements *)

(** What [get_network_interfaces] yields when [n] commands have been
    started before it, and the number of commands started after it: the
    function looks at nothing else. *)
Definition detect (h : host) (n : nat) : outcome (list interface) * nat :=
  let r := get_network_interfaces h (with_spawned n (boot ∅)) in
  (fst r, spawned (snd r)).

(** The host never fails to start the interface detection. *)
Definition detection_starts (h : host) : Prop :=
  forall n, exists ifs n', detect h n = (Ret ifs, n').

(** The wait lets the countdown of [select_network_binding] go on: nothing
    happened, or a line that is blank once stripped was read (without
    [select], stdin is not read at all). *)
Definition interface_goes_on (h : host) (e : wait_event) : bool :=
  match e with
  | Quiet _ => true
  | Typed raw => if has_select h then negb (Py.truthy (Py.strip raw)) else true
  | Undecodable => negb (has_select h)
  | Interrupted _ => false
  end.

(** The wait lets the countdown of [select_smb_version] go on, and the time
    it takes. *)
Definition smb_pause (h : host) (e : wait_event) : option Z :=
  match e with
  | Quiet lag => Some (1000 + Z.of_N lag)
  | Typed _ | Undecodable => if has_select h then None else Some 1000
  | Interrupted _ => None
  end.

(** The time taken by [k] waits from the [n]-th on, when all of them let
    the countdown of [select_smb_version] go on. *)
Fixpoint smb_elapsed (h : host) (n k : nat) : option Z :=
  match k with
  | O => Some 0
  | S k' =>
      match smb_pause h (waits h n), smb_elapsed h (S n) k' with
      | Some d, Some t => Some (d + t)
      | _, _ => None
      end
  end.

(** The countdown of [select_smb_version] started on [m] comes to its
    [k]-th wait (counted from 0): the waits before it let it go on and
    took less than the timeout. *)
Definition smb_reaches (h : host) (m : machine) (k : nat) : Prop :=
  exists t, smb_elapsed h (waited m) k = Some t /\ t < smb_timeout.

Definition is_quiet (e : wait_event) : bool :=
  match e with Quiet _ => true | _ => false end.

(** No line and no signal during [k] waits from the [n]-th on. *)
Definition quiet_for (h : host) (n k : nat) : Prop :=
  forall i, (i < k)%nat -> is_quiet (waits h (n + i)) = true.

(** What a machine keeps through a countdown: the object, the commands and
    the files. *)
Definition same_but_console_and_time (m m' : machine) : Prop :=
  self m' = self m /\ spawned m' = spawned m /\ files m' = files m.

(** *** The resolver as the specification words it (section 4.2):
    [resolve(probes, fallback)] over the truth values of the probes. *)
Fixpoint resolve {R} (probes : list (bool * R)) (fallback : R) : R :=
  match probes with
  | [] => fallback
  | (true, r) :: _ => r
  | (false, _) :: rest => resolve rest fallback
  end.

(** The host answers a command the same way whenever it is started. *)
Definition steady (h : host) : Prop :=
  forall n cmd, spawn h n cmd = spawn h 0%nat cmd.

(** The executable [tool] can be started. *)
Definition installed (h : host) (tool : string) : Prop :=
  forall n args, spawn h n (tool :: args) <> NoSuchCommand.

(** A command started with [check=True] ends with status 0. *)
Definition succeeds (h : host) (cmd : list string) : bool :=
  match spawn h 0%nat cmd with
  | Exited p => returncode p =? 0
  | NoSuchCommand => false
  end.

(** What a command prints (nothing when it cannot be started). *)
Definition output (h : host) (cmd : list string) : string :=
  match spawn h 0%nat cmd with
  | Exited p => stdout p
  | NoSuchCommand => EmptyString
  end.

(** The user and the group are known to the host. *)
Definition user_exists (h : host) (user : string) : bool :=
  succeeds h ["id"; user].

Definition group_exists (h : host) (group : string) : bool :=
  succeeds h ["getent"; "group"; group].

(** The probes of [get_nobody_user_group], written out in their order,
    and its terminal pair. *)
Definition nobody_probes (h : host) : list (bool * (string * string)) :=
  [ (user_exists h "nobody" && group_exists h "nobody", ("nobody", "nobody"));
    (user_exists h "nobody" && group_exists h "nogroup", ("nobody", "nogroup"));
    (user_exists h "nobody" && group_exists h "wheel", ("nobody", "wheel"));
    (user_exists h "nfsnobody" && group_exists h "nfsnobody",
     ("nfsnobody", "nfsnobody")) ].

Definition nobody_fallback (h : host) : string * string :=
  if succeeds h ["id"; "-gn"; current_user_name h]
  then (current_user_name h,
        Py.strip (output h ["id"; "-gn"; current_user_name h]))
  else ("root", "root").

(** The probes of [get_samba_service_names], written out in their order:
    the four unit files asked for by name, then the three names looked for
    in the listing of the pattern query.  Both tests are the substring
    tests of the source. *)
Definition unit_listed (h : host) (service : string) : bool :=
  Py.contains (service +:+ ".service")
    (output h ["systemctl"; "list-unit-files"; service +:+ ".service"]).

Definition pattern_listing (h : host) : string :=
  output h ["systemctl"; "list-unit-files"; "*smb*"; "*samba*"].

Definition probes_by_name (h : host) : list (bool * (string * option string)) :=
  [ (unit_listed h "smb", ("smb", Some "nmb"));
    (unit_listed h "smbd", ("smbd", Some "nmbd"));
    (unit_listed h "samba", ("samba", Some "nmb"));
    (unit_listed h "samba", ("samba", Some "winbind")) ].

Definition probes_in_listing (h : host) : list (bool * (string * option string)) :=
  [ (Py.contains "smb.service" (pattern_listing h), ("smb", Some "nmb"));
    (Py.contains "smbd.service" (pattern_listing h), ("smbd", Some "nmbd"));
    (Py.contains "samba.service" (pattern_listing h), ("samba", None)) ].

Definition service_probes (h : host) : list (bool * (string * option string)) :=
  probes_by_name h ++ probes_in_listing h.

(** The first probe that holds is the one of [r]. *)
Definition first_match {R} (probes : list (bool * R)) (r : R) : Prop :=
  exists before after,
    probes = (before ++ (true, r) :: after)%list
    /\ Forall (fun p => fst p = false) before.

Definition no_match {R} (probes : list (bool * R)) : Prop :=
  Forall (fun p => fst p = false) probes.

(** The object once an interface is bound. *)
Definition bound (s : SMBServerSetup) (address interface_name : string)
  : SMBServerSetup :=
  {| share_path := share_path s; share_name := share_name s;
     samba_config := samba_config s; backup_config := backup_config s;
     bind_interfaces := Some address;
     bind_interface_name := Some interface_name;
     debug_mode := debug_mode s;
     smb_min_protocol := smb_min_protocol s;
     smb_max_protocol := smb_max_protocol s |}.

(** The name stored for [address]: the name of the first interface of the
    second detection that has this address; when there is none, the name
    the object had before; when that is unset or empty, [eth0]. *)
Definition bound_name (before : option string) (interfaces_data : list interface)
  (address : string) : string :=
  let found :=
    match find (fun i => String.eqb (ip i) address) interfaces_data with
    | Some i => Some (name i)
    | None => before
    end in
  if truthy_opt found then default EmptyString found else "eth0".

(** The option [interface_choice] ends on. *)
Definition interface_pick (h : host) (options : list choice_option)
  (user_input : string) : option choice_option :=
  match Py.int (max_str_digits h) user_input with
  | Some v =>
      if (0 <=? v - 1) && (v - 1 <? Z.of_nat (length options))
      then options !! Z.to_nat (v - 1)
      else options !! 0%nat
  | None => options !! 0%nat
  end.

(** The object once the protocols are chosen. *)
Definition with_protocols (s : SMBServerSetup) (lo hi : string) : SMBServerSetup :=
  {| share_path := share_path s; share_name := share_name s;
     samba_config := samba_config s; backup_config := backup_config s;
     bind_interfaces := bind_interfaces s;
     bind_interface_name := bind_interface_name s;
     debug_mode := debug_mode s;
     smb_min_protocol := lo;
     smb_max_protocol := hi |}.

(** The index [smb_choice] ends on. *)
Definition smb_pick (h : host) (user_input : string) : nat :=
  if Py.truthy user_input then
    match Py.int (max_str_digits h) user_input with
    | Some v =>
        if (0 <=? v) && (v <? Z.of_nat (length smb_options)) then Z.to_nat v
        else 0%nat
    | None => 0%nat
    end
  else 0%nat.

(** What [interface_choice] reports. *)
Definition choice_report (h : host) (options : list choice_option)
  (user_input : string) (selected : choice_option) : list message :=
  match Py.int (max_str_digits h) user_input with
  | Some v =>
      if (0 <=? v - 1) && (v - 1 <? Z.of_nat (length options))
      then [InterfaceSelected (description selected)]
      else [InterfaceInvalidChoice user_input;
            InterfaceAutoSelected (description selected)]
  | None => [InterfaceInvalidInput user_input;
             InterfaceAutoSelected (description selected)]
  end.


(** What [smb_choice] reports. *)
Definition smb_report (h : host) (user_input : string) : list message :=
  match (if Py.truthy user_input then Py.int (max_str_digits h) user_input
         else Some 0) with
  | Some v =>
      if (0 <=? v) && (v <? Z.of_nat (length smb_options))
      then match smb_options !! Z.to_nat v with
           | Some o => [SmbSelected (smb_name o)]
           | None => []
           end
      else [SmbInvalidChoice user_input]
  | None => [SmbInvalidInput user_input]
  end.

(** A countdown, or a prompt, started on [m] waits again after its [k]-th
    wait (counted from 0). *)
Definition polls_past {A} (countdown : M A) (m : machine) (k : nat) : Prop :=
  (waited m + k + 1 < waited (snd (countdown m)))%nat.

(** One of the [k] waits from the [n]-th on finds a line that cannot be
    decoded. *)
Definition undecodable_within (h : host) (n k : nat) : Prop :=
  exists i, (i < k)%nat /\ waits h (n + i) = Undecodable.

(** A prompt over the protocols ends on the option of index [i]. *)
Definition smb_resolves_to (h : host) (m : machine) (i : nat) : Prop :=
  exists selected m',
    smb_options !! i = Some selected
    /\ select_smb_version h m = (Ret tt, m')
    /\ smb_min_protocol (self m') = min_protocol selected
    /\ smb_max_protocol (self m') = max_protocol selected.

(** The line does not name an option by an index that, once mapped by
    [shift], falls in the menu. *)
Definition malformed (h : host) (shift : Z) (size : nat) (user_input : string)
  : Prop :=
  Py.int (max_str_digits h) user_input = None
  \/ exists v, Py.int (max_str_digits h) user_input = Some v
               /\ ~ (0 <= v - shift < Z.of_nat size).

(** ** Sample hosts *)

Definition sample_listing : string :=
"1: lo: <LOOPBACK,UP,LOWER_UP> mtu 65536 qdisc noqueue state UNKNOWN
    inet 127.0.0.1/8 scope host lo
       valid_lft forever preferred_lft forever
2: eth0: <BROADCAST,MULTICAST,UP,LOWER_UP> mtu 1500 qdisc fq_codel state UP
    inet 192.168.1.10/24 brd 192.168.1.255 scope global dynamic eth0
       valid_lft 86000sec preferred_lft 86000sec
3: wlan0: <BROADCAST,MULTICAST,UP,LOWER_UP> mtu 1500 qdisc noqueue state UP
    inet 192.168.1.11/24 brd 192.168.1.255 scope global dynamic wlan0
       valid_lft 86000sec preferred_lft 86000sec
4: virbr0: <NO-CARRIER,BROADCAST,MULTICAST,UP> mtu 1500 qdisc noqueue state DOWN
    inet 192.168.122.1/24 brd 192.168.122.255 scope global virbr0
       valid_lft forever preferred_lft forever
".

Definition ok (out : string) : CompletedProcess :=
  {| returncode := 0; stdout := out |}.

Definition failed (status : Z) : CompletedProcess :=
  {| returncode := status; stdout := EmptyString |}.

(** A Debian-like machine with three interfaces: the user [nobody] and the
    group [nogroup], the services [smbd] and [nmbd]. *)
Definition sample_answer (cmd : list string) : CompletedProcess :=
  match cmd with
  | ["ip"; "-4"; "addr"; "show"] => ok sample_listing
  | ["id"; "nobody"] => ok "uid=65534(nobody) gid=65534(nogroup) groups=65534(nogroup)"
  | ["getent"; "group"; "nogroup"] => ok "nogroup:x:65534:"
  | ["getent"; "group"; _] => failed 2
  | ["systemctl"; "list-unit-files"; "smbd.service"] =>
      ok "UNIT FILE    STATE   PRESET
smbd.service enabled enabled
1 unit files listed."
  | ["systemctl"; "list-unit-files"; _] => ok "0 unit files listed."
  | _ => failed 1
  end.

Definition quiet_console : nat -> wait_event := fun _ => Quiet 0.

(** The line [raw] is typed during the [k]-th wait. *)
Definition typing (k : nat) (raw : string) : nat -> wait_event :=
  fun n => if (n =? k)%nat then Typed raw else Quiet 0.

(** An empty line during the first wait, the line [2] during the second. *)
Definition blank_then_2 : nat -> wait_event :=
  fun n =>
    match n with
    | 0%nat => Typed "
"
    | 1%nat => Typed "2
"
    | _ => Quiet 0
    end.

(** Bytes that are not text arrive during the [k]-th wait. *)
Definition garbled (k : nat) : nat -> wait_event :=
  fun n => if (n =? k)%nat then Undecodable else Quiet 0.

(** The operator hits Ctrl-C during the [k]-th wait. *)
Definition interrupting (k : nat) : nat -> wait_event :=
  fun n => if (n =? k)%nat then Interrupted Sig_KeyboardInterrupt else Quiet 0.

Definition sample_host (console_script : nat -> wait_event) : host :=
  {| has_select := true;
     waits := console_script;
     spawn := fun _ cmd => Exited (sample_answer cmd);
     getenv := fun _ => None;
     copy2_fault := fun _ _ => None;
     max_str_digits := 4300 |}.

(** The same machine without the [getent] executable. *)
Definition host_without_getent : host :=
  {| has_select := true;
     waits := quiet_console;
     spawn := fun _ cmd =>
                match cmd with
                | "getent" :: _ => NoSuchCommand
                | _ => Exited (sample_answer cmd)
                end;
     getenv := fun _ => None;
     copy2_fault := fun _ _ => None;
     max_str_digits := 4300 |}.

(** A machine without systemd. *)
Definition host_without_systemctl : host :=
  {| has_select := true;
     waits := quiet_console;
     spawn := fun _ cmd =>
                match cmd with
                | "systemctl" :: _ => NoSuchCommand
                | _ => Exited (sample_answer cmd)
                end;
     getenv := fun _ => None;
     copy2_fault := fun _ _ => None;
     max_str_digits := 4300 |}.

(** A machine where firewalld runs but [firewall-cmd] is missing, and ufw
    is there. *)
Definition host_without_firewall_cmd : host :=
  {| has_select := true;
     waits := quiet_console;
     spawn := fun _ cmd =>
                match cmd with
                | ["systemctl"; "is-active"; "firewalld"] => Exited (ok "active")
                | "firewall-cmd" :: _ => NoSuchCommand
                | ["which"; "ufw"] => Exited (ok "/usr/sbin/ufw")
                | ["ufw"; "allow"; "samba"] => Exited (ok "Rule added")
                | _ => Exited (sample_answer cmd)
                end;
     getenv := fun _ => None;
     copy2_fault := fun _ _ => None;
     max_str_digits := 4300 |}.

(** The same machine without the [ip] executable. *)
Definition host_without_ip : host :=
  {| has_select := true;
     waits := quiet_console;
     spawn := fun _ cmd =>
                match cmd with
                | "ip" :: _ => NoSuchCommand
                | _ => Exited (sample_answer cmd)
                end;
     getenv := fun _ => None;
     copy2_fault := fun _ _ => None;
     max_str_digits := 4300 |}.

(** A machine with systemd where no unit file is found by name and the
    pattern query lists the unit of a container. *)
Definition docker_samba_answer (cmd : list string) : CompletedProcess :=
  match cmd with
  | ["systemctl"; "list-unit-files"; "*smb*"; "*samba*"] =>
      ok "UNIT FILE            STATE   PRESET
docker-samba.service enabled enabled
1 unit files listed."
  | ["systemctl"; "list-unit-files"; _] => ok "0 unit files listed."
  | _ => sample_answer cmd
  end.

Definition host_with_docker_samba : host :=
  {| has_select := true;
     waits := quiet_console;
     spawn := fun _ cmd => Exited (docker_samba_answer cmd);
     getenv := fun _ => None;
     copy2_fault := fun _ _ => None;
     max_str_digits := 4300 |}.

(** A machine whose only address is the loopback one. *)
Definition offline_host : host :=
  {| has_select := true;
     waits := quiet_console;
     spawn := fun _ cmd =>
                match cmd with
                | ["ip"; "-4"; "addr"; "show"] =>
                    Exited (ok "1: lo: <LOOPBACK,UP,LOWER_UP> mtu 65536 qdisc noqueue
    inet 127.0.0.1/8 scope host lo
")
                | _ => Exited (sample_answer cmd)
                end;
     getenv := fun _ => None;
     copy2_fault := fun _ _ => None;
     max_str_digits := 4300 |}.

(** The three interfaces of the sample machine. *)
Definition sample_interfaces : list interface :=
  [ {| name := "eth0"; ip := "192.168.1.10"; cidr := "192.168.1.10/24" |};
    {| name := "wlan0"; ip := "192.168.1.11"; cidr := "192.168.1.11/24" |};
    {| name := "virbr0"; ip := "192.168.122.1"; cidr := "192.168.122.1/24" |} ].

(** A disk that holds the configuration of Samba and no backup of it. *)
Definition disk_with_config : gmap string string :=
  {[ "/etc/samba/smb.conf" := "[global]" ]}.

(** ** Vocabulary of the further statements *)

(** An interface the script can bind to: its address is not a loopback
    one and it has a name. *)
Definition usable (i : interface) : Prop :=
  Py.startswith "127." (ip i) = false /\ Py.truthy (name i) = true.

(** The three pairs of protocols [select_smb_version] can leave. *)
Definition protocol_pairs : list (string * string) :=
  map (fun o => (min_protocol o, max_protocol o)) smb_options.

(** [int] accepts the decimal writing of [n] on the host: the limit on the
    number of digits is off or not exceeded. *)
Definition within_digit_limit (h : host) (n : nat) : Prop :=
  max_str_digits h = 0%nat
  \/ (String.length (Py.str_of_nat n) <= max_str_digits h)%nat.

(** The wait brings a line that is blank once stripped. *)
Definition blank_line (e : wait_event) : bool :=
  match e with
  | Typed raw => negb (Py.truthy (Py.strip raw))
  | _ => false
  end.

(** * Theorems *)

Open Scope list_scope.

(** ** The string primitives on examples *)

Example strip_line : Py.strip "  2
" = "2".
Proof. reflexivity. Qed.

Example split_colon : Py.split_on ":" "2: eth0: <UP>" = ["2"; " eth0"; " <UP>"].
Proof. reflexivity. Qed.

Example split_blank : Py.split_ws "inet 10.0.0.5/24  brd 10.0.0.255" =
                      ["inet"; "10.0.0.5/24"; "brd"; "10.0.0.255"].
Proof. reflexivity. Qed.

Example int_plain : Py.int 4300 "2" = Some 2.
Proof. reflexivity. Qed.

Example int_signed : Py.int 4300 "-17" = Some (-17).
Proof. reflexivity. Qed.

Example int_underscore : Py.int 4300 "1_0" = Some 10.
Proof. reflexivity. Qed.

Example int_bad : Py.int 4300 "2a" = None /\ Py.int 4300 EmptyString = None
                  /\ Py.int 4300 "1__0" = None /\ Py.int 4300 "_1" = None
                  /\ Py.int 4300 "1_" = None /\ Py.int 4300 "+" = None.
Proof. repeat split; reflexivity. Qed.

Example str_of_nat_12 : Py.str_of_nat 12 = "12".
Proof. reflexivity. Qed.

(** ** Laws of the monad *)

Lemma bind_ret {A B} (a : A) (k : A -> M B) m : bind (ret a) k m = k a m.
Proof. reflexivity. Qed.

Lemma bind_raise {A B} (c : M A) (k : A -> M B) m e m' :
  c m = (Raise e, m') -> bind c k m = (Raise e, m').
Proof. intros H. unfold bind. now rewrite H. Qed.

Lemma bind_returns {A B} (c : M A) (k : A -> M B) m a m' :
  c m = (Ret a, m') -> bind c k m = k a m'.
Proof. intros H. unfold bind. now rewrite H. Qed.

Lemma machine_eta m :
  {| self := self m; spawned := spawned m; waited := waited m;
     clock := clock m; files := files m; console := console m |} = m.
Proof. now destruct m. Qed.

(** ** [backup_samba_config] *)

Lemma backup_when_present h m c :
  files m !! backup_config (self m) = Some c ->
  exists m', backup_samba_config h m = (Ret tt, m') /\ files m' = files m.
Proof.
  intros Hb. unfold backup_samba_config, bind, get_self, os_path_exists, print, ret.
  destruct (bool_decide (is_Some (files m !! samba_config (self m)))); simpl.
  - rewrite bool_decide_eq_true_2 by (rewrite Hb; eauto). simpl. eauto.
  - eauto.
Qed.

Lemma backup_frame h m path :
  path <> backup_config (self m) ->
  files (snd (backup_samba_config h m)) !! path = files m !! path.
Proof.
  intros Hne.
  unfold backup_samba_config, bind, get_self, os_path_exists, print, ret,
    try_except, shutil_copy2, sys_exit, raise.
  destruct (bool_decide (is_Some (files m !! samba_config (self m)))); simpl; [|done].
  destruct (bool_decide (is_Some (files m !! backup_config (self m)))); simpl; [done|].
  destruct (files m !! samba_config (self m)) as [data|]; simpl; [|done].
  destruct (copy2_fault h _ _) as [[part|]|]; simpl; try done;
    now rewrite lookup_insert_ne.
Qed.

Lemma backup_changes_only_when_due h m :
  files (snd (backup_samba_config h m)) !! backup_config (self m)
    <> files m !! backup_config (self m) ->
  is_Some (files m !! samba_config (self m))
  /\ files m !! backup_config (self m) = None.
Proof.
  unfold backup_samba_config, bind, get_self, os_path_exists, print, ret,
    try_except, shutil_copy2, sys_exit, raise.
  destruct (bool_decide_reflect (is_Some (files m !! samba_config (self m))))
    as [Hc|Hc]; simpl; [|done].
  destruct (bool_decide_reflect (is_Some (files m !! backup_config (self m))))
    as [Hb|Hb]; simpl; [done|].
  intros _. split; [done|]. now apply eq_None_not_Some.
Qed.

Lemma backup_copies_config h m m' :
  backup_samba_config h m = (Ret tt, m') ->
  files m !! backup_config (self m) = None ->
  is_Some (files m !! samba_config (self m)) ->
  files m' !! backup_config (self m) = files m !! samba_config (self m).
Proof.
  unfold backup_samba_config, bind, get_self, os_path_exists, print, ret,
    try_except, shutil_copy2, sys_exit, raise.
  intros Hrun Hb Hc. revert Hrun.
  rewrite bool_decide_eq_true_2 by done. simpl.
  rewrite bool_decide_eq_false_2 by (rewrite Hb; intros [? ?]; done). simpl.
  destruct Hc as [data Hc]. rewrite Hc.
  destruct (copy2_fault h _ _) as [[part|]|]; simpl; try discriminate.
  intros [= <-]. simpl. now rewrite lookup_insert_eq.
Qed.

Lemma backup_self h m : self (snd (backup_samba_config h m)) = self m.
Proof.
  unfold backup_samba_config, bind, get_self, os_path_exists, print, ret,
    try_except, shutil_copy2, sys_exit, raise.
  destruct (bool_decide (is_Some (files m !! samba_config (self m)))); simpl; [|done].
  destruct (bool_decide (is_Some (files m !! backup_config (self m)))); simpl; [done|].
  destruct (files m !! samba_config (self m)) as [data|]; simpl; [|done].
  destruct (copy2_fault h _ _) as [[part|]|]; simpl; done.
Qed.

Lemma backup_twice h m m1 :
  backup_samba_config h m = (Ret tt, m1) ->
  exists m2, backup_samba_config h m1 = (Ret tt, m2) /\ files m2 = files m1.
Proof.
  intros Hrun.
  assert (Hs : self m1 = self m).
  { pose proof (backup_self h m) as Hs. now rewrite Hrun in Hs. }
  destruct (files m1 !! backup_config (self m1)) as [c|] eqn:Hb1.
  { now apply backup_when_present with c. }
  (* no backup after the first run: the configuration is not there *)
  assert (Hc : files m !! samba_config (self m) = None).
  { destruct (files m !! samba_config (self m)) as [data|] eqn:Hc; [|done].
    exfalso.
    destruct (files m !! backup_config (self m)) as [c|] eqn:Hb.
    - destruct (backup_when_present h m c Hb) as (m' & Hrun' & Hf).
      rewrite Hrun in Hrun'. injection Hrun' as <-.
      rewrite Hs, Hf, Hb in Hb1. discriminate.
    - pose proof (backup_copies_config h m m1 Hrun Hb) as Hcopy.
      rewrite Hc in Hcopy. rewrite Hs, Hcopy in Hb1; [discriminate | eauto]. }
  assert (Hc1 : files m1 !! samba_config (self m1) = None).
  { rewrite Hs. destruct (decide (samba_config (self m) = backup_config (self m))) as [E|E].
    - rewrite E. now rewrite <- Hs.
    - pose proof (backup_frame h m _ E) as Hf. rewrite Hrun in Hf. simpl in Hf.
      now rewrite Hf. }
  unfold backup_samba_config, bind, get_self, os_path_exists, ret.
  rewrite bool_decide_eq_false_2 by (rewrite Hc1; intros [? ?]; done).
  eauto.
Qed.

(** ** The cascades *)

Lemma subprocess_run_steady h cmd check m :
  steady h ->
  subprocess_run h cmd check m =
    (match spawn h 0%nat cmd with
     | NoSuchCommand => Raise FileNotFoundError
     | Exited p =>
         if check && negb (returncode p =? 0) then Raise CalledProcessError
         else Ret p
     end, with_spawned (S (spawned m)) m).
Proof.
  intros St. unfold subprocess_run. rewrite (St (spawned m)).
  destruct (spawn h 0%nat cmd) as [p|]; [|done].
  now destruct (check && negb (returncode p =? 0)).
Qed.

Lemma resolve_first_match {R} (probes : list (bool * R)) fallback r :
  first_match probes r -> resolve probes fallback = r.
Proof.
  intros (before & after & -> & Hb).
  induction Hb as [|[b x] before Hx _ IH]; simpl; [done|].
  simpl in Hx. now subst b.
Qed.

Lemma resolve_no_match {R} (probes : list (bool * R)) fallback :
  no_match probes -> resolve probes fallback = fallback.
Proof.
  induction 1 as [|[b x] rest Hx _ IH]; simpl; [done|].
  simpl in Hx. now subst b.
Qed.

Lemma nobody_probe_steady h combination m :
  steady h -> installed h "id" -> installed h "getent" ->
  exists m',
    nobody_probe h combination m =
      (if succeeds h ["id"; fst combination]
          && succeeds h ["getent"; "group"; snd combination]
       then Ret (Break combination) else Ret Continue, m').
Proof.
  intros St Hid Hge. destruct combination as [user group]. simpl.
  unfold nobody_probe, try_except, bind, succeeds.
  rewrite subprocess_run_steady by done.
  pose proof (Hid 0%nat [user]) as Hu.
  destruct (spawn h 0%nat ["id"; user]) as [p|]; [|done]. simpl.
  destruct (returncode p =? 0); simpl; [|eauto].
  rewrite subprocess_run_steady by done.
  pose proof (Hge 0%nat ["group"; group]) as Hg.
  destruct (spawn h 0%nat ["getent"; "group"; group]) as [q|]; [|done]. simpl.
  destruct (returncode q =? 0); simpl; eauto.
Qed.

Lemma nobody_terminal_steady h m :
  steady h ->
  exists m', nobody_terminal h m = (Ret (nobody_fallback h), m').
Proof.
  intros St. unfold nobody_terminal, nobody_fallback, try_except, bind, print,
    succeeds, output. simpl.
  rewrite subprocess_run_steady by done.
  destruct (spawn h 0%nat _) as [p|]; simpl; [|eauto].
  destruct (returncode p =? 0); simpl; eauto.
Qed.

Lemma nobody_cascade h combos m :
  steady h -> installed h "id" -> installed h "getent" ->
  fst (for_else combos (nobody_probe h) (nobody_terminal h) m) =
    Ret (resolve
           (map (fun '(user, group) =>
                   (succeeds h ["id"; user]
                    && succeeds h ["getent"; "group"; group], (user, group)))
                combos)
           (nobody_fallback h)).
Proof.
  intros St Hid Hge. revert m.
  induction combos as [|[user group] combos IH]; intros m;
    cbn [for_else map resolve].
  - destruct (nobody_terminal_steady h m St) as (m' & ->). done.
  - unfold bind.
    destruct (nobody_probe_steady h (user, group) m St Hid Hge) as (m' & ->).
    cbn [fst snd].
    destruct (succeeds h ["id"; user] && succeeds h _); cbn [resolve]; [done|].
    apply IH.
Qed.

Lemma service_probe_steady h services m :
  steady h -> installed h "systemctl" ->
  exists m',
    service_probe h services m =
      (if unit_listed h (smb services)
       then Ret (Break (smb services, Some (nmb services)))
       else Ret Continue, m').
Proof.
  intros St Hsys.
  unfold service_probe, try_except, bind, unit_listed, output.
  rewrite subprocess_run_steady by done.
  pose proof (Hsys 0%nat ["list-unit-files"; smb services +:+ ".service"]) as Hs.
  destruct (spawn h 0%nat _) as [p|]; [|done]. simpl.
  destruct (Py.contains _ (stdout p)); simpl; eauto.
Qed.

Lemma service_terminal_steady h m :
  steady h -> installed h "systemctl" ->
  fst (service_terminal h m) =
    Ret (resolve
           [ (Py.contains "smb.service" (pattern_listing h), ("smb", Some "nmb"));
             (Py.contains "smbd.service" (pattern_listing h), ("smbd", Some "nmbd"));
             (Py.contains "samba.service" (pattern_listing h), ("samba", None)) ]
           ("smbd", Some "nmbd")).
Proof.
  intros St Hsys.
  unfold service_terminal, alternative_service_detection, try_except, bind,
    print, pattern_listing, output. simpl.
  rewrite subprocess_run_steady by done.
  pose proof (Hsys 0%nat ["list-unit-files"; "*smb*"; "*samba*"]) as Hs.
  destruct (spawn h 0%nat _) as [p|]; [|done]. simpl.
  destruct (Py.contains "smb.service" (stdout p)); simpl; [done|].
  destruct (Py.contains "smbd.service" (stdout p)); simpl; [done|].
  destruct (Py.contains "samba.service" (stdout p)); simpl; done.
Qed.

Lemma resolve_app {R} (l1 l2 : list (bool * R)) fallback :
  resolve (l1 ++ l2) fallback = resolve l1 (resolve l2 fallback).
Proof.
  induction l1 as [|[[|] r] l1 IH]; simpl; congruence.
Qed.

Lemma service_cascade h combos m :
  steady h -> installed h "systemctl" ->
  fst (for_else combos (service_probe h) (service_terminal h) m) =
    Ret (resolve
           (map (fun services => (unit_listed h (smb services),
                                  (smb services, Some (nmb services))))
                combos)
           (resolve
              [ (Py.contains "smb.service" (pattern_listing h), ("smb", Some "nmb"));
                (Py.contains "smbd.service" (pattern_listing h), ("smbd", Some "nmbd"));
                (Py.contains "samba.service" (pattern_listing h), ("samba", None)) ]
              ("smbd", Some "nmbd"))).
Proof.
  intros St Hsys. revert m.
  induction combos as [|services combos IH]; intros m; simpl for_else; simpl map.
  - now apply service_terminal_steady.
  - unfold bind.
    destruct (service_probe_steady h services m St Hsys) as (m' & ->).
    cbn [resolve]. destruct (unit_listed h (smb services)); simpl; [done|].
    apply IH.
Qed.

(** ** Interface detection looks at the commands only *)

Lemma get_network_interfaces_frame h m :
  get_network_interfaces h m =
    (fst (detect h (spawned m)), with_spawned (snd (detect h (spawned m))) m).
Proof.
  unfold detect, get_network_interfaces, try_except, bind, subprocess_run, ret.
  simpl.
  destruct (spawn h (spawned m) _) as [p|]; simpl; [|done].
  destruct (returncode p =? 0); simpl; [done|].
  destruct (spawn h (S (spawned m)) _) as [q|]; simpl; [|done].
  destruct (returncode q =? 0); simpl; done.
Qed.

Lemma detect_run h m ifs n' :
  detect h (spawned m) = (Ret ifs, n') ->
  get_network_interfaces h m = (Ret ifs, with_spawned n' m).
Proof. intros H. rewrite get_network_interfaces_frame. now rewrite H. Qed.

(** ** The countdown of [select_network_binding] *)

Lemma with_wait_with_wait n t n' t' m :
  with_wait n t (with_wait n' t' m) = with_wait n t m.
Proof. reflexivity. Qed.

Lemma with_wait_id m : with_wait (waited m) (clock m) m = m.
Proof. now destruct m. Qed.

Lemma interface_tick_goes_on h remaining m :
  interface_goes_on h (waits h (waited m)) = true ->
  exists t,
    interface_tick h remaining m = (Ret Continue, with_wait (S (waited m)) t m).
Proof.
  unfold interface_goes_on, interface_tick, try_except, bind, select_stdin,
    time_sleep, ret.
  destruct (has_select h); cbv beta;
    destruct (waits h (waited m)) as [lag|raw| |s]; try discriminate; eauto.
  destruct (Py.truthy (Py.strip raw)); [discriminate|]. eauto.
Qed.

Lemma interface_tick_line h remaining m raw :
  has_select h = true ->
  waits h (waited m) = Typed raw ->
  Py.truthy (Py.strip raw) = true ->
  interface_tick h remaining m =
    (Ret (Break (Py.strip raw)), with_wait (S (waited m)) (clock m) m).
Proof.
  intros Hsel Hev Hline.
  unfold interface_tick, try_except, bind, select_stdin, ret.
  rewrite Hsel. cbv beta. now rewrite Hev, Hline.
Qed.

Lemma interface_tick_interrupted h remaining m s :
  waits h (waited m) = Interrupted s ->
  interface_tick h remaining m =
    (Ret (Break "1"),
     with_console (console m ++ [InterfaceInterrupted])
       (with_wait (S (waited m)) (clock m) m)).
Proof.
  intros Hev.
  unfold interface_tick, try_except, bind, select_stdin, time_sleep, ret, print.
  destruct (has_select h); cbv beta; rewrite Hev; now destruct s.
Qed.

Lemma interface_loop_skip h (xs ys : list nat) (orelse : M string) m :
  (forall i, (i < length xs)%nat ->
             interface_goes_on h (waits h (waited m + i)) = true) ->
  exists t,
    for_else (xs ++ ys) (interface_tick h) orelse m =
      for_else ys (interface_tick h) orelse
        (with_wait (waited m + length xs) t m).
Proof.
  revert m. induction xs as [|x xs IH]; intros m Hgo.
  - exists (clock m). simpl. now rewrite Nat.add_0_r, with_wait_id.
  - assert (H0 : interface_goes_on h (waits h (waited m)) = true).
    { specialize (Hgo 0%nat). rewrite Nat.add_0_r in Hgo. apply Hgo. simpl. lia. }
    destruct (interface_tick_goes_on h x m H0) as (t & Htick).
    destruct (IH (with_wait (S (waited m)) t m)) as (t' & Hrest).
    { intros i Hi. simpl. replace (S (waited m + i)) with (waited m + S i)%nat by lia.
      apply Hgo. simpl. lia. }
    exists t'. simpl. unfold bind at 1. rewrite Htick, Hrest. simpl.
    now replace (S (waited m + length xs)) with (waited m + S (length xs))%nat by lia.
Qed.

Lemma range_down_split n k :
  (k < n)%nat ->
  exists xs x ys, range_down n = xs ++ x :: ys /\ length xs = k.
Proof.
  intros Hk.
  assert (Hlen : length (range_down n) = n).
  { unfold range_down. now rewrite length_rev, length_seq. }
  destruct (lookup_lt_is_Some_2 (range_down n) k) as [x Hx]; [lia|].
  exists (take k (range_down n)), x, (drop (S k) (range_down n)). split.
  - now rewrite <- (take_drop_middle _ _ _ Hx) at 1.
  - rewrite length_take. lia.
Qed.

Lemma range_down_length n : length (range_down n) = n.
Proof. unfold range_down. now rewrite length_rev, length_seq. Qed.

(** Nothing but blank lines for sixty waits: the countdown times out. *)
Lemma interface_countdown_timeout h m :
  (forall i, (i < 60)%nat -> interface_goes_on h (waits h (waited m + i)) = true) ->
  exists t,
    interface_countdown h m =
      (Ret "1", with_console (console m ++ [InterfaceTimeout])
                  (with_wait (waited m + 60) t m)).
Proof.
  intros Hgo. unfold interface_countdown.
  destruct (interface_loop_skip h (range_down 60) [] (print InterfaceTimeout ;;; ret "1") m)
    as (t & Hskip).
  { intros i Hi. apply Hgo. now rewrite range_down_length in Hi. }
  rewrite app_nil_r in Hskip. rewrite Hskip. exists t.
  now rewrite range_down_length.
Qed.

(** A line that is not blank, [k] waits into the countdown, ends it at
    once. *)
Lemma interface_countdown_line h m k raw :
  has_select h = true ->
  (k < 60)%nat ->
  (forall i, (i < k)%nat -> interface_goes_on h (waits h (waited m + i)) = true) ->
  waits h (waited m + k) = Typed raw ->
  Py.truthy (Py.strip raw) = true ->
  exists t,
    interface_countdown h m =
      (Ret (Py.strip raw), with_wait (waited m + k + 1) t m).
Proof.
  intros Hsel Hk Hgo Hev Hline. unfold interface_countdown.
  destruct (range_down_split 60 k Hk) as (xs & x & ys & -> & Hlen).
  destruct (interface_loop_skip h xs (x :: ys) (print InterfaceTimeout ;;; ret "1") m)
    as (t & Hskip).
  { intros i Hi. apply Hgo. lia. }
  rewrite Hskip, Hlen. exists t. simpl. unfold bind at 1.
  rewrite (interface_tick_line h x _ raw Hsel) by done. simpl.
  unfold ret. now replace (S (waited m + k)) with (waited m + k + 1)%nat by lia.
Qed.

(** A signal, [k] waits into the countdown, ends it at once with the key
    of the first option. *)
Lemma interface_countdown_interrupted h m k s :
  (k < 60)%nat ->
  (forall i, (i < k)%nat -> interface_goes_on h (waits h (waited m + i)) = true) ->
  waits h (waited m + k) = Interrupted s ->
  exists t,
    interface_countdown h m =
      (Ret "1", with_console (console m ++ [InterfaceInterrupted])
                  (with_wait (waited m + k + 1) t m)).
Proof.
  intros Hk Hgo Hev. unfold interface_countdown.
  destruct (range_down_split 60 k Hk) as (xs & x & ys & -> & Hlen).
  destruct (interface_loop_skip h xs (x :: ys) (print InterfaceTimeout ;;; ret "1") m)
    as (t & Hskip).
  { intros i Hi. apply Hgo. lia. }
  rewrite Hskip, Hlen. exists t. simpl. unfold bind at 1.
  rewrite (interface_tick_interrupted h x _ s) by done. simpl.
  unfold ret. now replace (S (waited m + k)) with (waited m + k + 1)%nat by lia.
Qed.

Lemma for_else_cons {X A} (x : X) xs (body : X -> M (ctl A)) orelse m :
  for_else (x :: xs) body orelse m =
    bind (body x)
      (fun r => match r with
                | Break a => ret a
                | Continue => for_else xs body orelse
                end) m.
Proof. reflexivity. Qed.

(** A line that cannot be decoded is not caught by the loop. *)
Lemma interface_tick_undecodable h remaining m :
  has_select h = true ->
  waits h (waited m) = Undecodable ->
  interface_tick h remaining m =
    (Raise UnicodeDecodeError, with_wait (S (waited m)) (clock m) m).
Proof.
  intros Hsel Hev.
  unfold interface_tick, try_except, bind, select_stdin, ret.
  rewrite Hsel. cbv beta. now rewrite Hev.
Qed.

(** One turn of the loop hands a line over or goes on, touching nothing
    but the console and the time, unless it reads a line that cannot be
    decoded. *)
Lemma interface_tick_cases h remaining m :
  (exists r m',
      interface_tick h remaining m = (Ret r, m')
      /\ same_but_console_and_time m m'
      /\ waited m' = S (waited m)
      /\ (r = Continue -> console m' = console m))
  \/ (has_select h = true
      /\ waits h (waited m) = Undecodable
      /\ interface_tick h remaining m =
           (Raise UnicodeDecodeError, with_wait (S (waited m)) (clock m) m)).
Proof.
  destruct (has_select h) eqn:Hsel, (waits h (waited m)) as [lag|raw| |s] eqn:Hev;
    try (right; split; [done|]; split; [done|];
         now apply interface_tick_undecodable);
    left;
    unfold interface_tick, try_except, bind, select_stdin, time_sleep, ret, print,
      same_but_console_and_time;
    rewrite Hsel; cbv beta; rewrite Hev;
    try destruct s; try destruct (Py.truthy (Py.strip raw));
    simpl; eexists _, _; (split; [reflexivity|]); simpl; repeat split; done.
Qed.

(** The countdown hands a line over, touching nothing but the console and
    the time, unless one of its waits reads a line that cannot be
    decoded: the exception leaves the loop, and nothing was printed. *)
Lemma interface_loop_cases h (xs : list nat) m :
  (exists user_input m',
      for_else xs (interface_tick h) (print InterfaceTimeout ;;; ret "1") m
        = (Ret user_input, m')
      /\ same_but_console_and_time m m'
      /\ (waited m <= waited m' <= waited m + length xs)%nat)
  \/ (exists k m',
         (k < length xs)%nat
         /\ has_select h = true
         /\ waits h (waited m + k) = Undecodable
         /\ for_else xs (interface_tick h) (print InterfaceTimeout ;;; ret "1") m
            = (Raise UnicodeDecodeError, m')
         /\ same_but_console_and_time m m'
         /\ console m' = console m
         /\ waited m' = (waited m + k + 1)%nat).
Proof.
  revert m. induction xs as [|x xs IH]; intros m.
  - left. simpl. eexists _, _. split; [reflexivity|]. simpl.
    unfold same_but_console_and_time. simpl. repeat split; lia.
  - destruct (interface_tick_cases h x m)
      as [(r & m1 & Htick & (Hs & Hn & Hf) & Hw & Hc) | (Hsel & Hev & Htick)].
    + rewrite for_else_cons, (bind_returns _ _ _ _ _ Htick). cbn [length].
      destruct r as [a|].
      * left. eexists _, _. split; [reflexivity|]. unfold same_but_console_and_time.
        repeat split; try done; lia.
      * destruct (IH m1) as [(ui & m' & Hrun & (Hs' & Hn' & Hf') & Hw')
                            | (k & m' & Hk & Hsel & Hev & Hrun & (Hs' & Hn' & Hf')
                               & Hc' & Hw')].
        -- left. exists ui, m'. split; [done|]. unfold same_but_console_and_time.
           repeat split; try congruence; lia.
        -- right. exists (S k), m'. split; [lia|]. split; [done|].
           split; [now replace (waited m + S k)%nat with (waited m1 + k)%nat by lia|].
           split; [done|]. unfold same_but_console_and_time.
           repeat split; try congruence; try lia.
           rewrite Hc'. now apply Hc.
    + right. rewrite for_else_cons, (bind_raise _ _ _ _ _ Htick). cbn [length].
      exists 0%nat. eexists. split; [lia|]. split; [done|].
      split; [now rewrite Nat.add_0_r|]. split; [reflexivity|].
      unfold same_but_console_and_time. simpl. repeat split; lia.
Qed.

Lemma interface_countdown_cases h m :
  (exists user_input m',
      interface_countdown h m = (Ret user_input, m')
      /\ same_but_console_and_time m m'
      /\ (waited m <= waited m' <= waited m + 60)%nat)
  \/ (exists k m',
         (k < 60)%nat
         /\ has_select h = true
         /\ waits h (waited m + k) = Undecodable
         /\ interface_countdown h m = (Raise UnicodeDecodeError, m')
         /\ same_but_console_and_time m m'
         /\ console m' = console m
         /\ waited m' = (waited m + k + 1)%nat).
Proof.
  pose proof (interface_loop_cases h (range_down 60) m) as H.
  now rewrite range_down_length in H.
Qed.

Lemma interface_countdown_frame h m user_input m' :
  interface_countdown h m = (Ret user_input, m') ->
  same_but_console_and_time m m'.
Proof.
  intros Hrun.
  destruct (interface_countdown_cases h m)
    as [(ui & m2 & H & Hframe & _) | (k & m2 & _ & _ & _ & H & _)];
    rewrite H in Hrun; [|discriminate].
  now injection Hrun as <- <-.
Qed.

(** A line that cannot be decoded, [k] waits into the countdown, ends it
    with the exception. *)
Lemma interface_countdown_undecodable h m k :
  has_select h = true ->
  (k < 60)%nat ->
  (forall i, (i < k)%nat -> interface_goes_on h (waits h (waited m + i)) = true) ->
  waits h (waited m + k) = Undecodable ->
  exists t,
    interface_countdown h m =
      (Raise UnicodeDecodeError, with_wait (waited m + k + 1) t m).
Proof.
  intros Hsel Hk Hgo Hev. unfold interface_countdown.
  destruct (range_down_split 60 k Hk) as (xs & x & ys & -> & Hlen).
  destruct (interface_loop_skip h xs (x :: ys) (print InterfaceTimeout ;;; ret "1") m)
    as (t & Hskip).
  { intros i Hi. apply Hgo. lia. }
  rewrite Hskip, Hlen. exists t. simpl. unfold bind at 1.
  rewrite (interface_tick_undecodable h x _ Hsel) by done. simpl.
  now replace (S (waited m + k)) with (waited m + k + 1)%nat by lia.
Qed.

(** ** From the line to the bound interface *)

Lemma bind_to_run h selected_option m interfaces_data n' :
  detect h (spawned m) = (Ret interfaces_data, n') ->
  bind_to h selected_option m =
    (Ret tt,
     with_spawned n'
       (with_self (fun s => bound s (value selected_option)
                              (bound_name (bind_interface_name s) interfaces_data
                                 (value selected_option))) m)).
Proof.
  intros Hd. unfold bind_to, bind, set_self, get_self, ret. cbv beta.
  rewrite get_network_interfaces_frame. cbn [spawned with_self].
  rewrite Hd. cbn [fst snd].
  unfold bound_name, bound, with_self, with_spawned.
  destruct (find _ interfaces_data) as [i|]; simpl.
  - destruct (Py.truthy (name i)); reflexivity.
  - destruct (truthy_opt (bind_interface_name (self m))) eqn:E; simpl.
    + destruct (bind_interface_name (self m)); [reflexivity|discriminate].
    + reflexivity.
Qed.

Lemma interface_choice_run h options user_input m interfaces_data n' selected :
  detect h (spawned m) = (Ret interfaces_data, n') ->
  interface_pick h options user_input = Some selected ->
  interface_choice h options user_input m =
    (Ret tt,
     with_console (console m ++ choice_report h options user_input selected)
       (with_spawned n'
          (with_self (fun s => bound s (value selected)
                                 (bound_name (bind_interface_name s) interfaces_data
                                    (value selected))) m))).
Proof.
  intros Hd Hpick.
  unfold interface_choice, interface_pick, choice_report, int in *.
  unfold try_except, bind at 1.
  destruct (Py.int (max_str_digits h) user_input) as [v|]; simpl.
  - destruct ((0 <=? v - 1) && (v - 1 <? Z.of_nat (length options))).
    + unfold bind, index. rewrite Hpick. unfold ret, print. cbv beta iota.
      rewrite (bind_to_run h selected m interfaces_data n' Hd). reflexivity.
    + unfold bind, index, print. change (Z.to_nat 0) with 0%nat.
      rewrite Hpick. unfold ret. cbv beta iota.
      rewrite (bind_to_run h selected _ interfaces_data n') by done.
      simpl. now rewrite <- app_assoc.
  - unfold bind, index, print, raise. change (Z.to_nat 0) with 0%nat.
    rewrite Hpick. unfold ret. cbv beta iota. cbn [caught_by_choice].
    rewrite (bind_to_run h selected _ interfaces_data n') by done.
    simpl. now rewrite <- app_assoc.
Qed.

Lemma interface_pick_total h options user_input :
  options <> [] ->
  exists selected, interface_pick h options user_input = Some selected
                   /\ selected ∈ options.
Proof.
  intros Hne. unfold interface_pick.
  assert (H0 : exists o, options !! 0%nat = Some o).
  { destruct options; [done|]. eauto. }
  destruct H0 as [o0 H0].
  destruct (Py.int _ _) as [v|].
  - destruct ((0 <=? v - 1) && (v - 1 <? Z.of_nat (length options))) eqn:E.
    + apply andb_true_iff in E as [E1 E2].
      apply Z.leb_le in E1. apply Z.ltb_lt in E2.
      destruct (lookup_lt_is_Some_2 options (Z.to_nat (v - 1))) as [o Ho]; [lia|].
      exists o. split; [done|]. eapply list_elem_of_lookup_2; eauto.
    + exists o0. split; [done|]. eapply list_elem_of_lookup_2; eauto.
  - exists o0. split; [done|]. eapply list_elem_of_lookup_2; eauto.
Qed.

Lemma interface_options_length interfaces :
  length (interface_options interfaces) = length interfaces.
Proof. unfold interface_options. apply length_imap. Qed.

Lemma interface_options_lookup interfaces k o :
  interface_options interfaces !! k = Some o ->
  exists i, interfaces !! k = Some i
            /\ value o = ip i
            /\ key o = Py.str_of_nat (k + 1).
Proof.
  unfold interface_options. rewrite list_lookup_imap.
  destruct (interfaces !! k) as [i|]; simpl; [|discriminate].
  intros [= <-]. exists i. auto.
Qed.

Lemma interface_options_elem interfaces o :
  o ∈ interface_options interfaces ->
  exists i, i ∈ interfaces /\ value o = ip i.
Proof.
  intros Ho. apply list_elem_of_lookup_1 in Ho as [k Hk].
  apply interface_options_lookup in Hk as (i & Hi & Hv & _).
  exists i. split; [|done]. eapply list_elem_of_lookup_2; eauto.
Qed.

(** ** [select_network_binding], from the detection to the report *)

Lemma select_network_binding_none h m n1 :
  detect h (spawned m) = (Ret [], n1) ->
  select_network_binding h m =
    (Raise (SystemExit 1),
     with_console (console m ++ [NoInterfacesDetected]) (with_spawned n1 m)).
Proof.
  intros Hd. unfold select_network_binding, bind at 1.
  now rewrite (detect_run h m [] n1 Hd).
Qed.

Lemma select_network_binding_run h m interfaces n1 interfaces_data n2 user_input m2 :
  detect h (spawned m) = (Ret interfaces, n1) ->
  interfaces <> [] ->
  detect h n1 = (Ret interfaces_data, n2) ->
  interface_countdown h (with_spawned n1 m) = (Ret user_input, m2) ->
  exists selected,
    interface_pick h (interface_options interfaces) user_input = Some selected
    /\ selected ∈ interface_options interfaces
    /\ select_network_binding h m =
         (Ret tt,
          let address := value selected in
          let nm := bound_name (bind_interface_name (self m)) interfaces_data
                      address in
          with_console
            (console m2
             ++ choice_report h (interface_options interfaces) user_input selected
             ++ [WillBindTo (Some nm) (Some address)])
            (with_spawned n2 (with_self (fun s => bound s address nm) m2))).
Proof.
  intros Hd Hne Hd2 Hcount.
  destruct (interface_countdown_frame h _ _ _ Hcount) as (Hs & Hn & Hf).
  simpl in Hs, Hn.
  destruct (interface_pick_total h (interface_options interfaces) user_input)
    as (selected & Hpick & Hin).
  { intros E. apply (f_equal length) in E.
    rewrite interface_options_length in E. now destruct interfaces. }
  exists selected. split; [done|]. split; [done|].
  unfold select_network_binding, bind at 1.
  rewrite (detect_run h m interfaces n1 Hd).
  destruct interfaces as [|i0 rest]; [done|].
  unfold bind at 1. rewrite Hcount.
  unfold bind at 1.
  rewrite (interface_choice_run h _ user_input m2 interfaces_data n2 selected)
    by (rewrite ?Hn; done).
  unfold bind, get_self, print. simpl.
  unfold with_console, with_spawned, with_self. simpl.
  now rewrite Hs, <- app_assoc.
Qed.

(** ** The countdown of [select_smb_version] *)

Lemma smb_tick_pause h m d :
  smb_pause h (waits h (waited m)) = Some d ->
  smb_tick h m = (Ret Continue, with_wait (S (waited m)) (clock m + d) m).
Proof.
  unfold smb_pause, smb_tick, try_except, bind, select_stdin, time_sleep, ret.
  destruct (has_select h); cbv beta;
    destruct (waits h (waited m)) as [lag|raw| |s]; try discriminate;
    intros [= <-]; simpl; do 2 f_equal; lia.
Qed.

Lemma smb_tick_line h m raw :
  has_select h = true ->
  waits h (waited m) = Typed raw ->
  smb_tick h m =
    (Ret (Break (Py.strip raw)), with_wait (S (waited m)) (clock m) m).
Proof.
  intros Hsel Hev. unfold smb_tick, try_except, bind, select_stdin, ret.
  rewrite Hsel. cbv beta. now rewrite Hev.
Qed.

Lemma smb_tick_interrupted h m s :
  waits h (waited m) = Interrupted s ->
  smb_tick h m =
    (Ret (Break "0"),
     with_console (console m ++ [SmbInterrupted])
       (with_wait (S (waited m)) (clock m) m)).
Proof.
  intros Hev.
  unfold smb_tick, try_except, bind, select_stdin, time_sleep, ret, print.
  destruct (has_select h); cbv beta; rewrite Hev; now destruct s.
Qed.

Lemma smb_pause_positive h e d : smb_pause h e = Some d -> 1000 <= d.
Proof.
  unfold smb_pause. destruct e as [lag|raw| |s]; try discriminate.
  - intros [= <-]. lia.
  - destruct (has_select h); [discriminate|]. intros [= <-]. lia.
  - destruct (has_select h); [discriminate|]. intros [= <-]. lia.
Qed.

Lemma smb_elapsed_nonneg h n k t : smb_elapsed h n k = Some t -> 0 <= t.
Proof.
  revert n t. induction k as [|k IH]; intros n t; simpl.
  - intros [= <-]. lia.
  - destruct (smb_pause h (waits h n)) as [d|] eqn:Hd; [|discriminate].
    destruct (smb_elapsed h (S n) k) as [t'|] eqn:Ht; [|discriminate].
    intros [= <-]. apply smb_pause_positive in Hd. apply IH in Ht. lia.
Qed.

Lemma smb_loop_skip h start_time (orelse : M string) k :
  forall fuel m t,
    smb_elapsed h (waited m) k = Some t ->
    clock m - start_time + t < smb_timeout ->
    (k <= fuel)%nat ->
    while_else fuel (smb_still_waiting start_time) (smb_tick h) orelse m =
      while_else (fuel - k) (smb_still_waiting start_time) (smb_tick h) orelse
        (with_wait (waited m + k) (clock m + t) m).
Proof.
  induction k as [|k IH]; intros fuel m t Hel Hlt Hk.
  - simpl in Hel. injection Hel as <-.
    now rewrite Nat.sub_0_r, Nat.add_0_r, Z.add_0_r, with_wait_id.
  - simpl in Hel.
    destruct (smb_pause h (waits h (waited m))) as [d|] eqn:Hd; [|discriminate].
    destruct (smb_elapsed h (S (waited m)) k) as [t'|] eqn:Ht; [|discriminate].
    injection Hel as <-.
    pose proof (smb_pause_positive _ _ _ Hd) as Hd1.
    pose proof (smb_elapsed_nonneg _ _ _ _ Ht) as Ht1.
    destruct fuel as [|fuel]; [lia|].
    cbn [while_else]. unfold bind at 1, smb_still_waiting at 1, bind, time_time, ret.
    replace (clock m - start_time <? smb_timeout) with true
      by (symmetry; apply Z.ltb_lt; lia).
    rewrite (smb_tick_pause h m d Hd).
    rewrite (IH fuel (with_wait (S (waited m)) (clock m + d) m) t');
      [|done|simpl; lia|lia].
    simpl. f_equal. unfold with_wait. simpl. f_equal; lia.
Qed.

Lemma smb_loop_step h start_time fuel (orelse : M string) m :
  (clock m - start_time <? smb_timeout) = true ->
  while_else (S fuel) (smb_still_waiting start_time) (smb_tick h) orelse m =
    bind (smb_tick h)
      (fun r => match r with
                | Break a => ret a
                | Continue =>
                    while_else fuel (smb_still_waiting start_time) (smb_tick h) orelse
                end) m.
Proof.
  intros Hc. cbn [while_else].
  unfold bind at 1, smb_still_waiting at 1, bind at 1, time_time, ret at 1.
  now rewrite Hc.
Qed.

Lemma smb_loop_stop h start_time fuel (orelse : M string) m :
  (clock m - start_time <? smb_timeout) = false ->
  while_else fuel (smb_still_waiting start_time) (smb_tick h) orelse m = orelse m.
Proof.
  intros Hc. destruct fuel; cbn [while_else];
    unfold bind at 1, smb_still_waiting at 1, bind at 1, time_time, ret at 1;
    now rewrite Hc.
Qed.

Lemma smb_tick_undecodable h m :
  has_select h = true ->
  waits h (waited m) = Undecodable ->
  smb_tick h m =
    (Raise UnicodeDecodeError, with_wait (S (waited m)) (clock m) m).
Proof.
  intros Hsel Hev. unfold smb_tick, try_except, bind, select_stdin, ret.
  rewrite Hsel. cbv beta. now rewrite Hev.
Qed.

(** The loop hands a line over within its budget of iterations, touching
    nothing but the console and the time, unless one of its waits reads a
    line that cannot be decoded: the exception leaves the loop, and
    nothing was printed. *)
Lemma smb_loop_cases h start_time fuel :
  forall m,
    smb_timeout - (clock m - start_time) <= 1000 * Z.of_nat fuel ->
    (exists user_input m',
        while_else fuel (smb_still_waiting start_time) (smb_tick h)
          (print SmbTimeout ;;; ret "0") m = (Ret user_input, m')
        /\ same_but_console_and_time m m'
        /\ (waited m <= waited m' <= waited m + fuel)%nat)
    \/ (exists k m',
           (k < fuel)%nat
           /\ has_select h = true
           /\ waits h (waited m + k) = Undecodable
           /\ while_else fuel (smb_still_waiting start_time) (smb_tick h)
                (print SmbTimeout ;;; ret "0") m = (Raise UnicodeDecodeError, m')
           /\ same_but_console_and_time m m'
           /\ console m' = console m
           /\ waited m' = (waited m + k + 1)%nat).
Proof.
  induction fuel as [|fuel IH]; intros m Hfuel.
  - left. rewrite smb_loop_stop by (apply Z.ltb_ge; lia).
    eexists _, _. split; [reflexivity|]. unfold same_but_console_and_time.
    simpl. repeat split; lia.
  - destruct (clock m - start_time <? smb_timeout) eqn:Hc.
    2:{ left. rewrite smb_loop_stop by done.
        eexists _, _. split; [reflexivity|]. unfold same_but_console_and_time.
        simpl. repeat split; lia. }
    rewrite smb_loop_step by done.
    destruct (smb_pause h (waits h (waited m))) as [d|] eqn:Hp.
    + pose proof (smb_pause_positive _ _ _ Hp) as Hd.
      rewrite (bind_returns _ _ _ _ _ (smb_tick_pause h m d Hp)).
      destruct (IH (with_wait (S (waited m)) (clock m + d) m))
        as [(ui & m' & Hrun & (Hs & Hn & Hf) & Hw)
           | (k & m' & Hk & Hsel & Hev & Hrun & (Hs & Hn & Hf) & Hcon & Hw)];
        [simpl; lia| |].
      * left. exists ui, m'. split; [done|]. simpl in *.
        unfold same_but_console_and_time. repeat split; try done; lia.
      * right. exists (S k), m'. simpl in *. split; [lia|]. split; [done|].
        split; [now replace (waited m + S k)%nat with (S (waited m + k)) by lia|].
        split; [done|]. unfold same_but_console_and_time.
        repeat split; try done; lia.
    + unfold smb_pause in Hp.
      destruct (waits h (waited m)) as [lag|raw| |s] eqn:Hev; [discriminate| | |];
        try (destruct (has_select h) eqn:Hsel; [|discriminate]).
      * left. rewrite (bind_returns _ _ _ _ _ (smb_tick_line h m raw Hsel Hev)).
        eexists _, _. split; [reflexivity|]. unfold same_but_console_and_time.
        simpl. repeat split; lia.
      * right. rewrite (bind_raise _ _ _ _ _ (smb_tick_undecodable h m Hsel Hev)).
        exists 0%nat. eexists. split; [lia|]. split; [done|].
        split; [now rewrite Nat.add_0_r|]. split; [reflexivity|].
        unfold same_but_console_and_time. simpl. repeat split; lia.
      * left. rewrite (bind_returns _ _ _ _ _ (smb_tick_interrupted h m s Hev)).
        eexists _, _. split; [reflexivity|]. unfold same_but_console_and_time.
        simpl. repeat split; lia.
Qed.

(** The countdown never exhausts its budget of iterations. *)
Lemma smb_countdown_cases h m :
  (exists user_input m',
      smb_countdown h (clock m) m = (Ret user_input, m')
      /\ same_but_console_and_time m m'
      /\ (waited m <= waited m' <= waited m + 60)%nat)
  \/ (exists k m',
         (k < 60)%nat
         /\ has_select h = true
         /\ waits h (waited m + k) = Undecodable
         /\ smb_countdown h (clock m) m = (Raise UnicodeDecodeError, m')
         /\ same_but_console_and_time m m'
         /\ console m' = console m
         /\ waited m' = (waited m + k + 1)%nat).
Proof.
  apply (smb_loop_cases h (clock m) smb_iterations m).
  unfold smb_timeout, smb_iterations. lia.
Qed.

(** Sixty quiet waits: the countdown times out. *)
Lemma smb_loop_quiet h start_time fuel :
  forall m,
    quiet_for h (waited m) fuel ->
    smb_timeout - (clock m - start_time) <= 1000 * Z.of_nat fuel ->
    exists n t,
      (n <= fuel)%nat
      /\ while_else fuel (smb_still_waiting start_time) (smb_tick h)
           (print SmbTimeout ;;; ret "0") m =
         (Ret "0", with_console (console m ++ [SmbTimeout])
                     (with_wait (waited m + n) t m)).
Proof.
  set (orelse := print SmbTimeout ;;; ret "0").
  assert (Hor : forall m, orelse m = (Ret "0", with_console (console m ++ [SmbTimeout]) m))
    by reflexivity.
  clearbody orelse.
  induction fuel as [|fuel IH]; intros m Hq Hfuel.
  - cbn [while_else]. unfold bind at 1, smb_still_waiting, bind, time_time, ret.
    replace (clock m - start_time <? smb_timeout) with false
      by (symmetry; apply Z.ltb_ge; lia).
    exists 0%nat, (clock m). split; [lia|].
    now rewrite Hor, Nat.add_0_r, with_wait_id.
  - cbn [while_else]. unfold bind at 1, smb_still_waiting at 1, bind, time_time, ret.
    destruct (clock m - start_time <? smb_timeout) eqn:Hc.
    + pose proof (Hq 0%nat ltac:(lia)) as H0. rewrite Nat.add_0_r in H0.
      destruct (waits h (waited m)) as [lag|raw| |s] eqn:Hev; try discriminate.
      rewrite (smb_tick_pause h m (1000 + Z.of_N lag))
        by (rewrite Hev; reflexivity).
      destruct (IH (with_wait (S (waited m)) (clock m + (1000 + Z.of_N lag)) m))
        as (n & t & Hn & Hrun).
      { intros i Hi. simpl.
        replace (S (waited m + i)) with (waited m + S i)%nat by lia.
        apply Hq. lia. }
      { simpl. lia. }
      exists (S n), t. split; [lia|]. rewrite Hrun. simpl.
      unfold with_console, with_wait. simpl. do 2 f_equal. lia.
    + exists 0%nat, (clock m). split; [lia|].
      now rewrite Hor, Nat.add_0_r, with_wait_id.
Qed.

Lemma smb_countdown_timeout h m :
  quiet_for h (waited m) 60 ->
  exists n t,
    (n <= 60)%nat
    /\ smb_countdown h (clock m) m =
         (Ret "0", with_console (console m ++ [SmbTimeout])
                     (with_wait (waited m + n) t m)).
Proof.
  intros Hq. apply (smb_loop_quiet h (clock m) smb_iterations m Hq).
  unfold smb_timeout, smb_iterations. lia.
Qed.

Lemma smb_elapsed_lower h n k t :
  smb_elapsed h n k = Some t -> 1000 * Z.of_nat k <= t.
Proof.
  revert n t. induction k as [|k IH]; intros n t; simpl smb_elapsed.
  - intros [= <-]. lia.
  - destruct (smb_pause h (waits h n)) as [d|] eqn:Hd; [|discriminate].
    destruct (smb_elapsed h (S n) k) as [t'|] eqn:Ht; [|discriminate].
    intros [= <-]. apply smb_pause_positive in Hd. apply IH in Ht. lia.
Qed.

(** The countdown comes to its [k]-th wait and finds there what the loop
    body makes of it. *)
Lemma smb_countdown_at h m k :
  smb_reaches h m k ->
  exists t,
    smb_countdown h (clock m) m =
      bind (smb_tick h)
        (fun r => match r with
                  | Break a => ret a
                  | Continue =>
                      while_else (smb_iterations - k - 1)
                        (smb_still_waiting (clock m)) (smb_tick h)
                        (print SmbTimeout ;;; ret "0")
                  end)
        (with_wait (waited m + k) t m).
Proof.
  intros (t & Hel & Hlt).
  pose proof (smb_elapsed_lower _ _ _ _ Hel) as Hlow.
  assert (Hk : (k < smb_iterations)%nat).
  { unfold smb_timeout, smb_iterations in *. lia. }
  exists (clock m + t). unfold smb_countdown.
  rewrite (smb_loop_skip h (clock m) _ k smb_iterations m t Hel) by lia.
  destruct (smb_iterations - k)%nat as [|f] eqn:Hf; [lia|].
  replace (S f - 1)%nat with f by lia.
  cbn [while_else]. unfold bind at 1, smb_still_waiting at 1, bind at 1, time_time, ret.
  cbn [clock with_wait].
  replace (clock m + t - clock m <? smb_timeout) with true
    by (symmetry; apply Z.ltb_lt; lia).
  reflexivity.
Qed.

(** A line, blank or not, at the [k]-th wait ends the countdown at once. *)
Lemma smb_countdown_line h m k raw :
  has_select h = true ->
  smb_reaches h m k ->
  waits h (waited m + k) = Typed raw ->
  exists t,
    smb_countdown h (clock m) m =
      (Ret (Py.strip raw), with_wait (waited m + k + 1) t m).
Proof.
  intros Hsel Hreach Hev.
  destruct (smb_countdown_at h m k Hreach) as (t & ->).
  exists t. unfold bind.
  rewrite (smb_tick_line h _ raw Hsel) by done.
  unfold ret, with_wait. simpl. do 2 f_equal. lia.
Qed.

(** A signal at the [k]-th wait ends the countdown at once with the key of
    the first option. *)
Lemma smb_countdown_interrupted h m k s :
  smb_reaches h m k ->
  waits h (waited m + k) = Interrupted s ->
  exists t,
    smb_countdown h (clock m) m =
      (Ret "0", with_console (console m ++ [SmbInterrupted])
                  (with_wait (waited m + k + 1) t m)).
Proof.
  intros Hreach Hev.
  destruct (smb_countdown_at h m k Hreach) as (t & ->).
  exists t. unfold bind.
  rewrite (smb_tick_interrupted h _ s) by done.
  unfold ret, with_wait, with_console. simpl. do 2 f_equal. lia.
Qed.

(** ** From the line to the protocols *)

Lemma smb_pick_bound h user_input : (smb_pick h user_input < 3)%nat.
Proof.
  unfold smb_pick. destruct (Py.truthy user_input); [|lia].
  destruct (Py.int _ _) as [v|]; [|lia].
  destruct ((0 <=? v) && (v <? Z.of_nat (length smb_options))) eqn:E; [|lia].
  apply andb_true_iff in E as [E1 E2].
  apply Z.leb_le in E1. apply Z.ltb_lt in E2. simpl in E2. lia.
Qed.

Lemma smb_choice_run h user_input m :
  exists selected,
    smb_options !! smb_pick h user_input = Some selected
    /\ smb_choice h user_input m =
         (Ret tt,
          with_console (console m ++ smb_report h user_input)
            (with_self (fun s => with_protocols s (min_protocol selected)
                                   (max_protocol selected)) m)).
Proof.
  unfold smb_choice, smb_pick, smb_report, int, try_except.
  destruct (Py.truthy user_input).
  - destruct (Py.int (max_str_digits h) user_input) as [v|].
    + unfold bind at 1, ret at 1.
      destruct ((0 <=? v) && (v <? Z.of_nat (length smb_options))) eqn:E.
      * apply andb_true_iff in E as [E1 E2].
        apply Z.leb_le in E1. apply Z.ltb_lt in E2. simpl in E2.
        assert (Hv : v = 0 \/ v = 1 \/ v = 2) by lia.
        destruct Hv as [-> | [-> | ->]]; eexists; (split; [reflexivity|]);
          reflexivity.
      * eexists. split; [reflexivity|]. reflexivity.
    + eexists. split; [reflexivity|]. reflexivity.
  - eexists. split; [reflexivity|]. reflexivity.
Qed.

Lemma select_smb_version_run h m user_input m2 :
  smb_countdown h (clock m) m = (Ret user_input, m2) ->
  exists selected,
    smb_options !! smb_pick h user_input = Some selected
    /\ select_smb_version h m =
         (Ret tt,
          with_console
            (console m2 ++ smb_report h user_input
             ++ [SmbConfiguration (min_protocol selected) (max_protocol selected)])
            (with_self (fun s => with_protocols s (min_protocol selected)
                                   (max_protocol selected)) m2)).
Proof.
  intros Hcount.
  destruct (smb_choice_run h user_input m2) as (selected & Hsel & Hrun).
  exists selected. split; [done|].
  unfold select_smb_version, bind at 1, time_time.
  unfold bind at 1. rewrite Hcount.
  unfold bind at 1. rewrite Hrun.
  unfold bind, get_self, print. simpl.
  unfold with_console, with_self. simpl. now rewrite <- app_assoc.
Qed.

(** A line that cannot be decoded at the [k]-th wait ends the countdown
    with the exception. *)
Lemma smb_countdown_undecodable h m k :
  has_select h = true ->
  smb_reaches h m k ->
  waits h (waited m + k) = Undecodable ->
  exists t,
    smb_countdown h (clock m) m =
      (Raise UnicodeDecodeError, with_wait (waited m + k + 1) t m).
Proof.
  intros Hsel Hreach Hev.
  destruct (smb_countdown_at h m k Hreach) as (t & ->).
  exists t. unfold bind.
  rewrite (smb_tick_undecodable h _ Hsel) by done.
  unfold with_wait. simpl. do 2 f_equal. lia.
Qed.

(** An exception of the countdown leaves the prompt. *)
Lemma select_smb_version_raises h m e m2 :
  smb_countdown h (clock m) m = (Raise e, m2) ->
  select_smb_version h m = (Raise e, m2).
Proof.
  intros Hcount.
  unfold select_smb_version, bind at 1, time_time.
  unfold bind at 1. now rewrite Hcount.
Qed.

(** ** The keys the prompts fall back on *)

Lemma py_int_0 d : Py.int d "0" = Some 0.
Proof. unfold Py.int. simpl. now destruct d as [|[|d]]. Qed.

Lemma py_int_1 d : Py.int d "1" = Some 1.
Proof. unfold Py.int. simpl. now destruct d as [|[|d]]. Qed.

Lemma py_int_2 d : Py.int d "2" = Some 2.
Proof. unfold Py.int. simpl. now destruct d as [|[|d]]. Qed.

Lemma interface_pick_first h options first :
  options !! 0%nat = Some first ->
  interface_pick h options "1" = Some first.
Proof.
  intros H0. unfold interface_pick. rewrite py_int_1.
  destruct options as [|o rest]; [discriminate|]. simpl in *. done.
Qed.

Lemma choice_report_first h options first :
  options !! 0%nat = Some first ->
  choice_report h options "1" first = [InterfaceSelected (description first)].
Proof.
  intros H0. unfold choice_report. rewrite py_int_1.
  destruct options as [|o rest]; [discriminate|]. done.
Qed.

Lemma interface_options_first interfaces first :
  interfaces !! 0%nat = Some first ->
  exists selected,
    interface_options interfaces !! 0%nat = Some selected
    /\ value selected = ip first.
Proof.
  intros H0. unfold interface_options. rewrite list_lookup_imap, H0. simpl. eauto.
Qed.

Lemma quiet_goes_on h e : is_quiet e = true -> interface_goes_on h e = true.
Proof. now destruct e. Qed.

Lemma quiet_elapsed h n k :
  quiet_for h n k -> exists t, smb_elapsed h n k = Some t.
Proof.
  revert n. induction k as [|k IH]; intros n Hq; simpl; [eauto|].
  pose proof (Hq 0%nat ltac:(lia)) as H0. rewrite Nat.add_0_r in H0.
  destruct (waits h n) as [lag|raw| |s]; try discriminate. simpl.
  destruct (IH (S n)) as (t & ->); [|eauto].
  intros i Hi. replace (S n + i)%nat with (n + S i)%nat by lia. apply Hq. lia.
Qed.

(** C1: when no line of input arrives before the timeout, each prompt ends
    on its first option.  [select_network_binding], on a host whose
    interface detection answers, waits sixty times, reports the timeout and
    binds the address of the first detected interface;
    [select_smb_version] reports the timeout and sets the protocols of its
    option 0, NT1 to SMB3. *)
Theorem timeout_selects_default (h : host) (m : machine) :
  quiet_for h (waited m) 60 ->
  (forall interfaces n1 interfaces_data n2 first,
      detect h (spawned m) = (Ret interfaces, n1) ->
      interfaces !! 0%nat = Some first ->
      detect h n1 = (Ret interfaces_data, n2) ->
      exists selected m',
        interface_options interfaces !! 0%nat = Some selected
        /\ value selected = ip first
        /\ select_network_binding h m = (Ret tt, m')
        /\ bind_interfaces (self m') = Some (value selected)
        /\ waited m' = (waited m + 60)%nat
        /\ console m' =
             console m ++ [InterfaceTimeout; InterfaceSelected (description selected);
                           WillBindTo (bind_interface_name (self m'))
                             (Some (value selected))])
  /\ (exists selected m',
        smb_options !! 0%nat = Some selected
        /\ select_smb_version h m = (Ret tt, m')
        /\ smb_min_protocol (self m') = min_protocol selected
        /\ smb_max_protocol (self m') = max_protocol selected
        /\ smb_min_protocol (self m') = "NT1"
        /\ smb_max_protocol (self m') = "SMB3"
        /\ console m' =
             console m ++ [SmbTimeout; SmbSelected (smb_name selected);
                           SmbConfiguration "NT1" "SMB3"]).
Proof.
  intros Hq. split.
  - intros interfaces n1 interfaces_data n2 first Hd H0 Hd2.
    destruct (interface_options_first interfaces first H0) as (selected & Hsel & Hv).
    destruct (interface_countdown_timeout h (with_spawned n1 m)) as (t & Hcount).
    { intros i Hi. apply quiet_goes_on. now apply Hq. }
    destruct (select_network_binding_run h m interfaces n1 interfaces_data n2
                "1" _ Hd ltac:(now destruct interfaces) Hd2 Hcount)
      as (selected' & Hpick & _ & Hrun).
    rewrite (interface_pick_first h _ selected Hsel) in Hpick.
    injection Hpick as <-.
    exists selected. eexists. split; [done|]. split; [done|].
    split; [exact Hrun|]. cbn -[bound_name choice_report].
    rewrite (choice_report_first h _ selected Hsel).
    repeat split. now rewrite <- app_assoc.
  - destruct (smb_countdown_timeout h m Hq) as (n & t & Hn & Hcount).
    destruct (select_smb_version_run h m "0" _ Hcount) as (selected & Hsel & Hrun).
    unfold smb_pick in Hsel. rewrite py_int_0 in Hsel. simpl in Hsel.
    injection Hsel as <-.
    eexists. eexists. split; [reflexivity|]. split; [exact Hrun|].
    unfold smb_report. rewrite py_int_0. simpl. repeat split.
    now rewrite <- app_assoc.
Qed.

(** C3, as the code has it: the line [2], read before the timeout, ends
    each countdown with the wait that brings it.  The menu of
    [select_network_binding] is numbered from 1: over three interfaces the
    key [2] binds the address of the interface of index 1.  The menu of
    [select_smb_version] is numbered from 0: the key [2] sets the
    protocols of the option of index 2. *)
Theorem key_2_follows_the_menu_numbering (h : host) (m : machine) (k : nat)
  (raw : string) :
  has_select h = true ->
  waits h (waited m + k) = Typed raw ->
  Py.strip raw = "2" ->
  (forall interfaces n1 interfaces_data n2 second,
      detect h (spawned m) = (Ret interfaces, n1) ->
      length interfaces = 3%nat ->
      interfaces !! 1%nat = Some second ->
      detect h n1 = (Ret interfaces_data, n2) ->
      (k < 60)%nat ->
      (forall i, (i < k)%nat ->
                 interface_goes_on h (waits h (waited m + i)) = true) ->
      exists selected m',
        interface_options interfaces !! 1%nat = Some selected
        /\ key selected = "2"
        /\ value selected = ip second
        /\ select_network_binding h m = (Ret tt, m')
        /\ bind_interfaces (self m') = Some (value selected)
        /\ waited m' = (waited m + k + 1)%nat)
  /\ (smb_reaches h m k ->
      exists m',
        smb_resolves_to h m 2
        /\ select_smb_version h m = (Ret tt, m')
        /\ smb_min_protocol (self m') = "SMB3"
        /\ smb_max_protocol (self m') = "SMB3"
        /\ waited m' = (waited m + k + 1)%nat).
Proof.
  intros Hsel Hev Hline. split.
  - intros interfaces n1 interfaces_data n2 second Hd Hlen H1 Hd2 Hk Hgo.
    destruct (interface_countdown_line h (with_spawned n1 m) k raw Hsel Hk Hgo Hev)
      as (t & Hcount); [now rewrite Hline|].
    rewrite Hline in Hcount.
    destruct (select_network_binding_run h m interfaces n1 interfaces_data n2
                "2" _ Hd ltac:(now destruct interfaces) Hd2 Hcount)
      as (selected & Hpick & _ & Hrun).
    unfold interface_pick in Hpick. rewrite py_int_2 in Hpick.
    rewrite interface_options_length, Hlen in Hpick.
    change ((0 <=? 2 - 1) && (2 - 1 <? Z.of_nat 3)) with true in Hpick.
    change (Z.to_nat (2 - 1)) with 1%nat in Hpick. cbv iota in Hpick.
    destruct (interface_options_lookup _ _ _ Hpick) as (i & Hi & Hv & Hkey).
    rewrite H1 in Hi. injection Hi as <-.
    exists selected. eexists. split; [done|]. split; [now rewrite Hkey|].
    split; [done|]. split; [exact Hrun|]. split; reflexivity.
  - intros Hreach.
    destruct (smb_countdown_line h m k raw Hsel Hreach Hev) as (t & Hcount).
    rewrite Hline in Hcount.
    destruct (select_smb_version_run h m "2" _ Hcount) as (selected & Hpick & Hrun).
    unfold smb_pick in Hpick. rewrite py_int_2 in Hpick. simpl in Hpick.
    injection Hpick as <-.
    eexists. split; [|split; [exact Hrun|]].
    + eexists. eexists. split; [reflexivity|]. split; [exact Hrun|]. done.
    + done.
Qed.

(** C3 fails on the protocol prompt: the line [2] typed during the fourth
    wait of [select_smb_version] does not end on the option of index 1
    (SMBv2); it ends on the option of index 2. *)
Lemma smb_key_2_is_not_the_second_option :
  ~ smb_resolves_to (sample_host (typing 3 "2
")) (boot ∅) 1.
Proof.
  intros (selected & m' & Hsel & Hrun & Hmin & _).
  injection Hsel as <-. vm_compute in Hrun. injection Hrun as <-.
  discriminate Hmin.
Qed.

(** ** Malformed lines *)

Lemma interface_pick_malformed h options user_input :
  malformed h 1 (length options) user_input ->
  interface_pick h options user_input = options !! 0%nat.
Proof.
  unfold interface_pick. intros [-> | (v & -> & Hout)]; [done|].
  destruct ((0 <=? v - 1) && (v - 1 <? Z.of_nat (length options))) eqn:E; [|done].
  apply andb_true_iff in E as [E1 E2].
  apply Z.leb_le in E1. apply Z.ltb_lt in E2. lia.
Qed.

Lemma choice_report_malformed h options user_input selected :
  malformed h 1 (length options) user_input ->
  exists why,
    choice_report h options user_input selected =
      [why; InterfaceAutoSelected (description selected)]
    /\ (why = InterfaceInvalidChoice user_input
        \/ why = InterfaceInvalidInput user_input).
Proof.
  unfold choice_report. intros [-> | (v & -> & Hout)]; [eauto|].
  destruct ((0 <=? v - 1) && (v - 1 <? Z.of_nat (length options))) eqn:E; [|eauto].
  apply andb_true_iff in E as [E1 E2].
  apply Z.leb_le in E1. apply Z.ltb_lt in E2. lia.
Qed.

Lemma smb_pick_malformed h user_input :
  malformed h 0 (length smb_options) user_input ->
  smb_pick h user_input = 0%nat.
Proof.
  unfold smb_pick. destruct (Py.truthy user_input); [|done].
  intros [-> | (v & -> & Hout)]; [done|].
  destruct ((0 <=? v) && (v <? Z.of_nat (length smb_options))) eqn:E; [|done].
  apply andb_true_iff in E as [E1 E2].
  apply Z.leb_le in E1. apply Z.ltb_lt in E2. lia.
Qed.

(** ** The countdowns and the lines they read *)

Lemma interface_loop_waits_again h (ys : list nat) x m :
  (waited m <
   waited (snd (for_else (x :: ys) (interface_tick h)
                  (print InterfaceTimeout ;;; ret "1") m)))%nat.
Proof.
  rewrite for_else_cons.
  destruct (interface_tick_cases h x m)
    as [(r & m1 & Htick & _ & Hw & _) | (_ & _ & Htick)].
  - rewrite (bind_returns _ _ _ _ _ Htick). destruct r as [a|].
    + simpl. lia.
    + destruct (interface_loop_cases h ys m1)
        as [(ui & m' & -> & _ & Hw') | (k & m' & _ & _ & _ & -> & _ & _ & Hw')];
        simpl; lia.
  - rewrite (bind_raise _ _ _ _ _ Htick). simpl. lia.
Qed.

(** After a blank line the countdown of [select_network_binding] waits
    again. *)
Lemma interface_countdown_blank h m k raw :
  has_select h = true ->
  (k < 59)%nat ->
  (forall i, (i < k)%nat -> interface_goes_on h (waits h (waited m + i)) = true) ->
  waits h (waited m + k) = Typed raw ->
  Py.truthy (Py.strip raw) = false ->
  polls_past (interface_countdown h) m k.
Proof.
  intros Hsel Hk Hgo Hev Hblank. unfold polls_past, interface_countdown.
  destruct (range_down_split 60 (S k) ltac:(lia)) as (xs & x & ys & -> & Hlen).
  destruct (interface_loop_skip h xs (x :: ys)
              (print InterfaceTimeout ;;; ret "1") m) as (t & ->).
  { intros i Hi. rewrite Hlen in Hi.
    destruct (decide (i = k)) as [-> | Hne]; [|apply Hgo; lia].
    rewrite Hev. simpl. now rewrite Hsel, Hblank. }
  pose proof (interface_loop_waits_again h ys x
                (with_wait (waited m + length xs) t m)) as Hw.
  cbn [waited with_wait] in Hw. lia.
Qed.

(** An exception of the countdown leaves [select_network_binding]. *)
Lemma select_network_binding_raises h m interfaces n1 e m2 :
  detect h (spawned m) = (Ret interfaces, n1) ->
  interfaces <> [] ->
  interface_countdown h (with_spawned n1 m) = (Raise e, m2) ->
  select_network_binding h m = (Raise e, m2).
Proof.
  intros Hd Hne Hcount. unfold select_network_binding, bind at 1.
  rewrite (detect_run h m interfaces n1 Hd).
  destruct interfaces as [|i0 rest]; [done|].
  unfold bind at 1. now rewrite Hcount.
Qed.

(** The waits of [select_network_binding] are those of its countdown. *)
Lemma select_network_binding_waited h m interfaces n1 interfaces_data n2 :
  detect h (spawned m) = (Ret interfaces, n1) ->
  interfaces <> [] ->
  detect h n1 = (Ret interfaces_data, n2) ->
  waited (snd (select_network_binding h m)) =
    waited (snd (interface_countdown h (with_spawned n1 m))).
Proof.
  intros Hd Hne Hd2.
  destruct (interface_countdown_cases h (with_spawned n1 m))
    as [(ui & m2 & Hcount & _) | (k & m2 & _ & _ & _ & Hcount & _)].
  - destruct (select_network_binding_run h m interfaces n1 interfaces_data n2
                ui m2 Hd Hne Hd2 Hcount) as (selected & _ & _ & ->).
    now rewrite Hcount.
  - rewrite (select_network_binding_raises h m interfaces n1 _ m2 Hd Hne Hcount).
    now rewrite Hcount.
Qed.

(** C4, as the code has it: with [select] at hand, a line read during the
    [k]-th wait that does not parse as an integer, or whose integer falls
    outside the menu, makes a prompt end on its first option, without
    raising, once the prompt takes the line as the answer.
    [select_network_binding], on a host whose interface detection
    answers, takes a line that is not blank: it reports the line and binds
    the address of the first detected interface; a blank line is no
    answer, and the prompt waits again.  [select_smb_version] takes any
    line, blank or not: it sets NT1 to SMB3.  A line that cannot be
    decoded is not absorbed: [UnicodeDecodeError] leaves each prompt, with
    nothing printed and the object untouched. *)
Theorem malformed_line_resolution (h : host) (m : machine) (k : nat) :
  has_select h = true ->
  (forall raw,
      waits h (waited m + k) = Typed raw ->
      (forall interfaces n1 interfaces_data n2 first,
          detect h (spawned m) = (Ret interfaces, n1) ->
          interfaces !! 0%nat = Some first ->
          detect h n1 = (Ret interfaces_data, n2) ->
          (k < 60)%nat ->
          (forall i, (i < k)%nat ->
                     interface_goes_on h (waits h (waited m + i)) = true) ->
          (Py.truthy (Py.strip raw) = true ->
           malformed h 1 (length (interface_options interfaces)) (Py.strip raw) ->
           exists selected m' why,
             interface_options interfaces !! 0%nat = Some selected
             /\ value selected = ip first
             /\ select_network_binding h m = (Ret tt, m')
             /\ bind_interfaces (self m') = Some (value selected)
             /\ waited m' = (waited m + k + 1)%nat
             /\ console m' =
                  console m ++ [why; InterfaceAutoSelected (description selected);
                                WillBindTo (bind_interface_name (self m'))
                                  (Some (value selected))]
             /\ (why = InterfaceInvalidChoice (Py.strip raw)
                 \/ why = InterfaceInvalidInput (Py.strip raw)))
          /\ (Py.truthy (Py.strip raw) = false ->
              malformed h 1 (length (interface_options interfaces)) (Py.strip raw)
              /\ ((k < 59)%nat -> polls_past (select_network_binding h) m k)))
      /\ (smb_reaches h m k ->
          malformed h 0 (length smb_options) (Py.strip raw) ->
          exists m',
            smb_resolves_to h m 0
            /\ select_smb_version h m = (Ret tt, m')
            /\ smb_min_protocol (self m') = "NT1"
            /\ smb_max_protocol (self m') = "SMB3"
            /\ waited m' = (waited m + k + 1)%nat))
  /\ (waits h (waited m + k) = Undecodable ->
      (forall interfaces n1,
          detect h (spawned m) = (Ret interfaces, n1) ->
          interfaces <> [] ->
          (k < 60)%nat ->
          (forall i, (i < k)%nat ->
                     interface_goes_on h (waits h (waited m + i)) = true) ->
          exists t,
            select_network_binding h m =
              (Raise UnicodeDecodeError,
               with_wait (waited m + k + 1) t (with_spawned n1 m)))
      /\ (smb_reaches h m k ->
          exists t,
            select_smb_version h m =
              (Raise UnicodeDecodeError, with_wait (waited m + k + 1) t m))).
Proof.
  intros Hsel. split.
  - intros raw Hev. split.
    + intros interfaces n1 interfaces_data n2 first Hd H0 Hd2 Hk Hgo.
      assert (Hne : interfaces <> []) by now destruct interfaces.
      split.
      * intros Hline Hbad.
        destruct (interface_options_first interfaces first H0)
          as (selected & Hfirst & Hv).
        destruct (interface_countdown_line h (with_spawned n1 m) k raw
                    Hsel Hk Hgo Hev Hline) as (t & Hcount).
        destruct (select_network_binding_run h m interfaces n1 interfaces_data n2
                    _ _ Hd Hne Hd2 Hcount) as (selected' & Hpick & _ & Hrun).
        rewrite (interface_pick_malformed h _ _ Hbad), Hfirst in Hpick.
        injection Hpick as <-.
        destruct (choice_report_malformed h _ _ selected Hbad) as (why & Hrep & Hwhy).
        exists selected. eexists. exists why.
        split; [done|]. split; [done|]. split; [exact Hrun|].
        cbn -[bound_name choice_report]. rewrite Hrep. repeat split; done.
      * intros Hblank. split.
        -- left. unfold Py.truthy in Hblank.
           destruct (Py.strip raw); [reflexivity|discriminate].
        -- intros Hk'. unfold polls_past.
           rewrite (select_network_binding_waited h m interfaces n1
                      interfaces_data n2 Hd Hne Hd2).
           apply (interface_countdown_blank h (with_spawned n1 m) k raw);
             done.
    + intros Hreach Hbad.
      destruct (smb_countdown_line h m k raw Hsel Hreach Hev) as (t & Hcount).
      destruct (select_smb_version_run h m _ _ Hcount) as (selected & Hpick & Hrun).
      rewrite (smb_pick_malformed h _ Hbad) in Hpick. injection Hpick as <-.
      eexists. split; [|split; [exact Hrun|done]].
      eexists. eexists. split; [reflexivity|]. split; [exact Hrun|]. done.
  - intros Hev. split.
    + intros interfaces n1 Hd Hne Hk Hgo.
      destruct (interface_countdown_undecodable h (with_spawned n1 m) k
                  Hsel Hk Hgo Hev) as (t & Hcount).
      exists t.
      exact (select_network_binding_raises h m interfaces n1 _ _ Hd Hne Hcount).
    + intros Hreach.
      destruct (smb_countdown_undecodable h m k Hsel Hreach Hev) as (t & Hcount).
      exists t. now apply select_smb_version_raises.
Qed.

(** C4 fails on the interface prompt: the empty line read during the first
    wait does not parse as an integer, and [select_network_binding] does
    not end on its first option: it goes on to the line [2] of the second
    wait and binds the second interface.  It fails on both prompts for a
    line that cannot be decoded: the prompt raises. *)
Lemma blank_or_undecodable_line_is_not_absorbed :
  (let h := sample_host blank_then_2 in
   waits h 0 = Typed "
"
   /\ malformed h 1 (length (interface_options sample_interfaces)) (Py.strip "
")
   /\ detect h 0%nat = (Ret sample_interfaces, 1%nat)
   /\ exists m',
        select_network_binding h (boot ∅) = (Ret tt, m')
        /\ bind_interfaces (self m') = Some "192.168.1.11"
        /\ Some "192.168.1.11" <> option_map ip (sample_interfaces !! 0%nat))
  /\ (let h := sample_host (garbled 0) in
      fst (select_network_binding h (boot ∅)) = Raise UnicodeDecodeError
      /\ fst (select_smb_version h (boot ∅)) = Raise UnicodeDecodeError).
Proof.
  split.
  - split; [reflexivity|]. split; [left; reflexivity|].
    split; [vm_compute; reflexivity|].
    eexists. split; [vm_compute; reflexivity|]. split; [reflexivity|discriminate].
  - split; vm_compute; reflexivity.
Qed.

(** C6: a signal that interrupts the wait for input makes each prompt end
    on its first option, and the prompt returns.
    [select_network_binding], on a host whose interface detection answers,
    reports the interruption and binds the address of the first detected
    interface; [select_smb_version] reports it and sets NT1 to SMB3. *)
Theorem interrupt_selects_default (h : host) (m : machine) (k : nat) (s : signal) :
  waits h (waited m + k) = Interrupted s ->
  (forall interfaces n1 interfaces_data n2 first,
      detect h (spawned m) = (Ret interfaces, n1) ->
      interfaces !! 0%nat = Some first ->
      detect h n1 = (Ret interfaces_data, n2) ->
      (k < 60)%nat ->
      (forall i, (i < k)%nat ->
                 interface_goes_on h (waits h (waited m + i)) = true) ->
      exists selected m',
        interface_options interfaces !! 0%nat = Some selected
        /\ value selected = ip first
        /\ select_network_binding h m = (Ret tt, m')
        /\ bind_interfaces (self m') = Some (value selected)
        /\ console m' =
             console m ++ [InterfaceInterrupted;
                           InterfaceSelected (description selected);
                           WillBindTo (bind_interface_name (self m'))
                             (Some (value selected))])
  /\ (smb_reaches h m k ->
      exists m',
        smb_resolves_to h m 0
        /\ select_smb_version h m = (Ret tt, m')
        /\ smb_min_protocol (self m') = "NT1"
        /\ smb_max_protocol (self m') = "SMB3"
        /\ console m' =
             console m ++ [SmbInterrupted; SmbSelected "SMBv1 (NT1)";
                           SmbConfiguration "NT1" "SMB3"]).
Proof.
  intros Hev. split.
  - intros interfaces n1 interfaces_data n2 first Hd H0 Hd2 Hk Hgo.
    destruct (interface_options_first interfaces first H0) as (selected & Hfirst & Hv).
    destruct (interface_countdown_interrupted h (with_spawned n1 m) k s Hk Hgo Hev)
      as (t & Hcount).
    destruct (select_network_binding_run h m interfaces n1 interfaces_data n2
                _ _ Hd ltac:(now destruct interfaces) Hd2 Hcount)
      as (selected' & Hpick & _ & Hrun).
    rewrite (interface_pick_first h _ selected Hfirst) in Hpick.
    injection Hpick as <-.
    exists selected. eexists.
    split; [done|]. split; [done|]. split; [exact Hrun|].
    cbn -[bound_name choice_report].
    rewrite (choice_report_first h _ selected Hfirst).
    split; [done|]. now rewrite <- app_assoc.
  - intros Hreach.
    destruct (smb_countdown_interrupted h m k s Hreach Hev) as (t & Hcount).
    destruct (select_smb_version_run h m _ _ Hcount) as (selected & Hpick & Hrun).
    unfold smb_pick in Hpick. rewrite py_int_0 in Hpick. simpl in Hpick.
    injection Hpick as <-.
    eexists. split; [|split; [exact Hrun|]].
    + eexists. eexists. split; [reflexivity|]. split; [exact Hrun|]. done.
    + unfold smb_report. rewrite py_int_0. simpl. repeat split.
      now rewrite <- app_assoc.
Qed.

(** C7, as the code has it: with [select] at hand, a line read during the
    [k]-th wait of a countdown ends the countdown of
    [select_network_binding] with that wait exactly when it is not blank
    (after a blank line the loop waits again, unless that was its last
    turn), and ends the countdown of [select_smb_version] with that wait
    whether it is blank or not. *)
Theorem polling_stops_on_a_line (h : host) (m : machine) (k : nat) (raw : string) :
  has_select h = true ->
  waits h (waited m + k) = Typed raw ->
  ((k < 60)%nat ->
   (forall i, (i < k)%nat ->
              interface_goes_on h (waits h (waited m + i)) = true) ->
   (Py.truthy (Py.strip raw) = true ->
    exists m',
      interface_countdown h m = (Ret (Py.strip raw), m')
      /\ waited m' = (waited m + k + 1)%nat
      /\ ~ polls_past (interface_countdown h) m k)
   /\ (Py.truthy (Py.strip raw) = false ->
       (k < 59)%nat ->
       polls_past (interface_countdown h) m k))
  /\ (smb_reaches h m k ->
      exists m',
        smb_countdown h (clock m) m = (Ret (Py.strip raw), m')
        /\ waited m' = (waited m + k + 1)%nat
        /\ ~ polls_past (smb_countdown h (clock m)) m k).
Proof.
  intros Hsel Hev. split.
  - intros Hk Hgo. split.
    + intros Hline.
      destruct (interface_countdown_line h m k raw Hsel Hk Hgo Hev Hline)
        as (t & Hcount).
      eexists. split; [exact Hcount|]. split; [reflexivity|].
      unfold polls_past. rewrite Hcount. simpl. lia.
    + intros Hblank Hk'.
      now apply (interface_countdown_blank h m k raw).
  - intros Hreach.
    destruct (smb_countdown_line h m k raw Hsel Hreach Hev) as (t & Hcount).
    eexists. split; [exact Hcount|]. split; [reflexivity|].
    unfold polls_past. rewrite Hcount. simpl. lia.
Qed.

(** C7 fails on the protocol prompt: the first wait of the countdown of
    [select_smb_version] brings an empty line, and the countdown does not
    wait again. *)
Lemma smb_blank_line_ends_polling :
  let h := sample_host (typing 0 "
") in
  waits h 0 = Typed "
"
  /\ Py.strip "
" = EmptyString
  /\ ~ polls_past (smb_countdown h (clock (boot ∅))) (boot ∅) 0.
Proof.
  split; [reflexivity|]. split; [reflexivity|].
  unfold polls_past. vm_compute. lia.
Qed.

(** ** What ends the session *)

Lemma detect_cases h n :
  (exists interfaces n', detect h n = (Ret interfaces, n'))
  \/ (exists n', detect h n = (Raise FileNotFoundError, n')).
Proof.
  unfold detect, get_network_interfaces, try_except, bind, subprocess_run, ret.
  simpl.
  destruct (spawn h n _) as [p|]; simpl; [|eauto].
  destruct (returncode p =? 0); simpl; [eauto|].
  destruct (spawn h (S n) _) as [q|]; simpl; [|eauto].
  destruct (returncode q =? 0); simpl; eauto.
Qed.

Lemma bind_to_fails h selected_option m n' :
  detect h (spawned m) = (Raise FileNotFoundError, n') ->
  exists m', bind_to h selected_option m = (Raise FileNotFoundError, m').
Proof.
  intros Hd. unfold bind_to, bind, set_self. cbv beta.
  rewrite get_network_interfaces_frame. cbn [spawned with_self].
  rewrite Hd. cbn [fst snd]. eauto.
Qed.

Lemma interface_choice_fails h options user_input m n' :
  options <> [] ->
  detect h (spawned m) = (Raise FileNotFoundError, n') ->
  exists m',
    interface_choice h options user_input m = (Raise FileNotFoundError, m').
Proof.
  intros Hne Hd.
  destruct (interface_pick_total h options user_input Hne) as (selected & Hpick & _).
  unfold interface_choice, interface_pick, int in *.
  unfold try_except, bind at 1.
  destruct (Py.int (max_str_digits h) user_input) as [v|]; simpl.
  - destruct ((0 <=? v - 1) && (v - 1 <? Z.of_nat (length options))).
    + unfold bind, index. rewrite Hpick. unfold ret. cbv beta iota.
      destruct (bind_to_fails h selected m n' Hd) as (m' & ->). simpl. eauto.
    + unfold bind, index, print. change (Z.to_nat 0) with 0%nat.
      rewrite Hpick. unfold ret. cbv beta iota.
      destruct (bind_to_fails h selected
                  (with_console (console m ++ [InterfaceInvalidChoice user_input]) m)
                  n' Hd) as (m' & ->).
      simpl. eauto.
  - unfold bind, index, print, raise. change (Z.to_nat 0) with 0%nat.
    rewrite Hpick. unfold ret. cbv beta iota. cbn [caught_by_choice].
    destruct (bind_to_fails h selected
                (with_console (console m ++ [InterfaceInvalidInput user_input]) m)
                n' Hd) as (m' & ->).
    simpl. eauto.
Qed.

(** Every way [select_network_binding] can end. *)
Lemma select_network_binding_cases h m :
  (exists n1, detect h (spawned m) = (Raise FileNotFoundError, n1)
              /\ select_network_binding h m =
                   (Raise FileNotFoundError, with_spawned n1 m))
  \/ (exists n1, detect h (spawned m) = (Ret [], n1)
                 /\ select_network_binding h m =
                      (Raise (SystemExit 1),
                       with_console (console m ++ [NoInterfacesDetected])
                         (with_spawned n1 m)))
  \/ (exists interfaces n1 n2 m',
         detect h (spawned m) = (Ret interfaces, n1)
         /\ interfaces <> []
         /\ detect h n1 = (Raise FileNotFoundError, n2)
         /\ select_network_binding h m = (Raise FileNotFoundError, m'))
  \/ (exists interfaces n1 m',
         detect h (spawned m) = (Ret interfaces, n1)
         /\ interfaces <> []
         /\ has_select h = true
         /\ undecodable_within h (waited m) 60
         /\ select_network_binding h m = (Raise UnicodeDecodeError, m')
         /\ console m' = console m
         /\ self m' = self m)
  \/ (exists interfaces n1 interfaces_data n2 user_input m2 selected,
         detect h (spawned m) = (Ret interfaces, n1)
         /\ interfaces <> []
         /\ detect h n1 = (Ret interfaces_data, n2)
         /\ interface_countdown h (with_spawned n1 m) = (Ret user_input, m2)
         /\ selected ∈ interface_options interfaces
         /\ select_network_binding h m =
              (Ret tt,
               let address := value selected in
               let nm := bound_name (bind_interface_name (self m)) interfaces_data
                           address in
               with_console
                 (console m2
                  ++ choice_report h (interface_options interfaces) user_input
                       selected
                  ++ [WillBindTo (Some nm) (Some address)])
                 (with_spawned n2 (with_self (fun s => bound s address nm) m2)))).
Proof.
  destruct (detect_cases h (spawned m)) as [(interfaces & n1 & Hd) | (n1 & Hd)].
  2:{ left. exists n1. split; [done|].
      unfold select_network_binding, bind at 1.
      rewrite get_network_interfaces_frame, Hd. reflexivity. }
  right. destruct interfaces as [|i0 rest].
  { left. exists n1. split; [done|]. now apply select_network_binding_none. }
  right.
  destruct (interface_countdown_cases h (with_spawned n1 m))
    as [(ui & m2 & Hcount & (Hs & Hn & Hf) & Hw)
       | (k & m2 & Hk & Hsel & Hev & Hcount & (Hs & Hn & Hf) & Hcon & Hw)].
  2:{ right. left. exists (i0 :: rest), n1, m2.
      split; [done|]. split; [done|]. split; [done|].
      split; [now exists k|].
      split; [now apply (select_network_binding_raises h m (i0 :: rest) n1)|].
      split; [exact Hcon | exact Hs]. }
  destruct (detect_cases h n1) as [(interfaces_data & n2 & Hd2) | (n2 & Hd2)].
  - right. right.
    destruct (select_network_binding_run h m _ n1 interfaces_data n2 ui m2
                Hd ltac:(done) Hd2 Hcount) as (selected & Hpick & Hin & Hrun).
    exists (i0 :: rest), n1, interfaces_data, n2, ui, m2, selected.
    repeat split; done.
  - left.
    destruct (interface_choice_fails h (interface_options (i0 :: rest)) ui m2 n2)
      as (m' & Hfail); [done|now rewrite Hn|].
    exists (i0 :: rest), n1, n2, m'. repeat split; try done.
    unfold select_network_binding, bind at 1.
    rewrite (detect_run h m _ n1 Hd).
    unfold bind at 1. rewrite Hcount.
    unfold bind at 1. now rewrite Hfail.
Qed.

(** Every way [select_smb_version] can end. *)
Lemma select_smb_version_cases h m :
  (exists m', select_smb_version h m = (Ret tt, m'))
  \/ (exists m',
         has_select h = true
         /\ undecodable_within h (waited m) 60
         /\ select_smb_version h m = (Raise UnicodeDecodeError, m')
         /\ console m' = console m
         /\ self m' = self m).
Proof.
  destruct (smb_countdown_cases h m)
    as [(ui & m2 & Hcount & _)
       | (k & m2 & Hk & Hsel & Hev & Hcount & (Hs & _) & Hcon & _)].
  - left. destruct (select_smb_version_run h m ui m2 Hcount) as (selected & _ & Hrun).
    eauto.
  - right. exists m2. split; [done|]. split; [now exists k|].
    split; [now apply select_smb_version_raises|]. done.
Qed.

(** An exception of [select_network_binding] ends the steps of [setup]
    that read the console. *)
Lemma select_network_and_protocol_raises h m e m' :
  select_network_binding h m = (Raise e, m') ->
  select_network_and_protocol h m = (Raise e, m').
Proof. intros H. unfold select_network_and_protocol, bind. now rewrite H. Qed.

(** C8, as the code has it: when the detection yields no interface,
    [select_network_binding] prints its diagnostic and leaves by
    [sys.exit(1)], with the object untouched and no wait on the console,
    and the steps of [setup] that follow are not run.  It is not the only
    way through the prompts that ends the session: a detection command
    that cannot be started leaves [select_network_binding] with
    [FileNotFoundError], and a line that cannot be decoded leaves either
    prompt with [UnicodeDecodeError], both with nothing printed.  The
    prompts raise nothing else, and neither runs for ever. *)
Theorem no_interface_is_fatal (h : host) (m : machine) :
  (forall n1,
      detect h (spawned m) = (Ret [], n1) ->
      select_network_binding h m =
        (Raise (SystemExit 1),
         with_console (console m ++ [NoInterfacesDetected]) (with_spawned n1 m))
      /\ select_network_and_protocol h m =
           (Raise (SystemExit 1),
            with_console (console m ++ [NoInterfacesDetected]) (with_spawned n1 m)))
  /\ (forall n1,
         detect h (spawned m) = (Raise FileNotFoundError, n1) ->
         select_network_binding h m = (Raise FileNotFoundError, with_spawned n1 m)
         /\ select_network_and_protocol h m =
              (Raise FileNotFoundError, with_spawned n1 m))
  /\ (forall k,
         has_select h = true ->
         waits h (waited m + k) = Undecodable ->
         (forall interfaces n1,
             detect h (spawned m) = (Ret interfaces, n1) ->
             interfaces <> [] ->
             (k < 60)%nat ->
             (forall i, (i < k)%nat ->
                        interface_goes_on h (waits h (waited m + i)) = true) ->
             exists t,
               select_network_binding h m =
                 (Raise UnicodeDecodeError,
                  with_wait (waited m + k + 1) t (with_spawned n1 m))
               /\ select_network_and_protocol h m =
                    (Raise UnicodeDecodeError,
                     with_wait (waited m + k + 1) t (with_spawned n1 m)))
         /\ (smb_reaches h m k ->
             exists t,
               select_smb_version h m =
                 (Raise UnicodeDecodeError, with_wait (waited m + k + 1) t m)))
  /\ (forall e m',
         select_network_binding h m = (Raise e, m') ->
         (e = SystemExit 1 /\ exists n1, detect h (spawned m) = (Ret [], n1))
         \/ (e = FileNotFoundError
             /\ ((exists n1, detect h (spawned m) = (Raise FileNotFoundError, n1))
                 \/ (exists interfaces n1 n2,
                        detect h (spawned m) = (Ret interfaces, n1)
                        /\ detect h n1 = (Raise FileNotFoundError, n2))))
         \/ (e = UnicodeDecodeError
             /\ has_select h = true
             /\ undecodable_within h (waited m) 60))
  /\ (forall e m',
         select_smb_version h m = (Raise e, m') ->
         e = UnicodeDecodeError
         /\ has_select h = true
         /\ undecodable_within h (waited m) 60)
  /\ fst (select_network_binding h m) <> Diverge
  /\ fst (select_smb_version h m) <> Diverge.
Proof.
  split; [|split; [|split; [|split; [|split; [|split]]]]].
  - intros n1 Hd. pose proof (select_network_binding_none h m n1 Hd) as Hrun.
    split; [done|]. now apply select_network_and_protocol_raises.
  - intros n1 Hd.
    assert (Hrun : select_network_binding h m =
                     (Raise FileNotFoundError, with_spawned n1 m)).
    { unfold select_network_binding, bind at 1.
      rewrite get_network_interfaces_frame, Hd. reflexivity. }
    split; [done|]. now apply select_network_and_protocol_raises.
  - intros k Hsel Hev. split.
    + intros interfaces n1 Hd Hne Hk Hgo.
      destruct (interface_countdown_undecodable h (with_spawned n1 m) k
                  Hsel Hk Hgo Hev) as (t & Hcount).
      pose proof (select_network_binding_raises h m interfaces n1 _ _ Hd Hne Hcount)
        as Hrun.
      exists t. split; [exact Hrun|]. now apply select_network_and_protocol_raises.
    + intros Hreach.
      destruct (smb_countdown_undecodable h m k Hsel Hreach Hev) as (t & Hcount).
      exists t. now apply select_smb_version_raises.
  - intros e m' Hrun.
    destruct (select_network_binding_cases h m)
      as [(n1 & Hd & H) | [(n1 & Hd & H) | [(ifs & n1 & n2 & m2 & Hd & _ & Hd2 & H)
         | [(ifs & n1 & m2 & _ & _ & Hsel & Hun & H & _)
         | (ifs & n1 & ifs' & n2 & ui & m2 & sel & _ & _ & _ & _ & _ & H)]]]];
      rewrite H in Hrun; try discriminate; injection Hrun as <- <-.
    + right. left. split; [done|]. left. eauto.
    + left. eauto.
    + right. left. split; [done|]. right. eauto.
    + right. right. done.
  - intros e m' Hrun.
    destruct (select_smb_version_cases h m)
      as [(m2 & H) | (m2 & Hsel & Hun & H & _)];
      rewrite H in Hrun; [discriminate|]. injection Hrun as <- <-. done.
  - destruct (select_network_binding_cases h m)
      as [(n1 & Hd & H) | [(n1 & Hd & H) | [(ifs & n1 & n2 & m2 & Hd & _ & Hd2 & H)
         | [(ifs & n1 & m2 & _ & _ & _ & _ & H & _)
         | (ifs & n1 & ifs' & n2 & ui & m2 & sel & _ & _ & _ & _ & _ & H)]]]];
      now rewrite H.
  - destruct (select_smb_version_cases h m)
      as [(m2 & H) | (m2 & _ & _ & H & _)]; now rewrite H.
Qed.

(** C8 fails for its last clause: on a host without the [ip] command the
    detection yields no list at all, and the steps of [setup] that read
    the console end with [FileNotFoundError] and nothing printed; on the
    sample host, where three interfaces are detected, bytes that are not
    text end them with [UnicodeDecodeError]. *)
Lemma other_conditions_are_fatal_too :
  (forall n1, detect host_without_ip 0%nat <> (Ret [], n1))
  /\ select_network_and_protocol host_without_ip (boot ∅) =
       (Raise FileNotFoundError, with_spawned 1 (boot ∅))
  /\ console (snd (select_network_and_protocol host_without_ip (boot ∅))) = []
  /\ (let h := sample_host (garbled 2) in
      detect h 0%nat = (Ret sample_interfaces, 1%nat)
      /\ fst (select_network_and_protocol h (boot ∅)) = Raise UnicodeDecodeError
      /\ console (snd (select_network_and_protocol h (boot ∅))) = []).
Proof.
  split; [intros n1; vm_compute; discriminate|].
  split; [vm_compute; reflexivity|]. split; [vm_compute; reflexivity|].
  split; [vm_compute; reflexivity|]. split; vm_compute; reflexivity.
Qed.

(** ** The bound interface *)

Lemma bound_name_truthy before interfaces_data address :
  Py.truthy (bound_name before interfaces_data address) = true.
Proof.
  unfold bound_name.
  destruct (find _ interfaces_data) as [i|]; simpl.
  - destruct (Py.truthy (name i)) eqn:E; done.
  - destruct before as [s|]; simpl; [|done].
    destruct (Py.truthy s) eqn:E; done.
Qed.

Lemma bound_name_origin interfaces_data address :
  bound_name None interfaces_data address = "eth0"
  \/ exists i, i ∈ interfaces_data /\ ip i = address
               /\ name i = bound_name None interfaces_data address.
Proof.
  unfold bound_name.
  destruct (find _ interfaces_data) as [i|] eqn:Hfind; simpl; [|now left].
  destruct (Py.truthy (name i)) eqn:E; [|now left].
  right. exists i. apply find_some in Hfind as [Hin Heq].
  apply String.eqb_eq in Heq. split; [now apply list_elem_of_In|]. done.
Qed.

(** C9: whenever [select_network_binding] returns, [bind_interfaces] holds
    the address of one of the interfaces detected at the start and
    [bind_interface_name] holds a non-empty name; on an object whose
    [bind_interface_name] was unset, as [__init__] leaves it, that name is
    [eth0] or the name of an interface of the second detection that has
    the bound address. *)
Theorem binding_is_set_on_return (h : host) (m m' : machine) :
  select_network_binding h m = (Ret tt, m') ->
  exists interfaces n1 interfaces_data n2 i nm,
    detect h (spawned m) = (Ret interfaces, n1)
    /\ detect h n1 = (Ret interfaces_data, n2)
    /\ i ∈ interfaces
    /\ bind_interfaces (self m') = Some (ip i)
    /\ bind_interface_name (self m') = Some nm
    /\ Py.truthy nm = true
    /\ (bind_interface_name (self m) = None ->
        nm = "eth0"
        \/ exists i', i' ∈ interfaces_data /\ ip i' = ip i /\ name i' = nm).
Proof.
  intros Hrun.
  destruct (select_network_binding_cases h m)
    as [(n1 & Hd & H) | [(n1 & Hd & H) | [(ifs & n1 & n2 & m2 & Hd & _ & Hd2 & H)
       | [(ifs & n1 & m2 & _ & _ & _ & _ & H & _)
       | (ifs & n1 & ifs' & n2 & ui & m2 & sel & Hd & _ & Hd2 & _ & Hin & H)]]]];
    rewrite H in Hrun; try discriminate.
  injection Hrun as <-.
  destruct (interface_options_elem ifs sel Hin) as (i & Hi & Hv).
  exists ifs, n1, ifs', n2, i,
    (bound_name (bind_interface_name (self m)) ifs' (value sel)).
  split; [done|]. split; [done|]. split; [done|].
  cbn -[bound_name choice_report]. rewrite <- Hv.
  split; [done|]. split; [done|]. split; [apply bound_name_truthy|].
  intros ->. apply bound_name_origin.
Qed.

(** C10: [backup_samba_config] writes the backup only when the
    configuration exists and no backup does.  A backup that exists is left
    as it is and the step returns; no other file is touched; a backup
    written by a step that returns is the content of the configuration; and
    a second run after a run that returned changes no file. *)
Theorem backup_is_written_once (h : host) (m : machine) :
  (forall content,
      files m !! backup_config (self m) = Some content ->
      exists m', backup_samba_config h m = (Ret tt, m') /\ files m' = files m)
  /\ (files (snd (backup_samba_config h m)) !! backup_config (self m)
        <> files m !! backup_config (self m) ->
      is_Some (files m !! samba_config (self m))
      /\ files m !! backup_config (self m) = None)
  /\ (forall path,
         path <> backup_config (self m) ->
         files (snd (backup_samba_config h m)) !! path = files m !! path)
  /\ (forall m1,
         backup_samba_config h m = (Ret tt, m1) ->
         (files m !! backup_config (self m) = None ->
          is_Some (files m !! samba_config (self m)) ->
          files m1 !! backup_config (self m) = files m !! samba_config (self m))
         /\ exists m2, backup_samba_config h m1 = (Ret tt, m2)
                       /\ files m2 = files m1).
Proof.
  split; [|split; [|split]].
  - intros content. apply backup_when_present.
  - apply backup_changes_only_when_due.
  - intros path. apply backup_frame.
  - intros m1 Hrun. split.
    + now apply (backup_copies_config h).
    + now apply (backup_twice h m).
Qed.

(** A probe whose command cannot be started ends the cascade of
    [get_nobody_user_group] with the exception. *)
Lemma nobody_probe_not_found_propagates h m :
  spawn h (spawned m) ["id"; "nobody"] = NoSuchCommand ->
  get_nobody_user_group h m =
    (Raise FileNotFoundError, with_spawned (S (spawned m)) m).
Proof.
  intros Hsp. unfold get_nobody_user_group. simpl.
  unfold bind, nobody_probe, try_except, bind, subprocess_run. now rewrite Hsp.
Qed.

Lemma group_probe_not_found_propagates h m p :
  spawn h (spawned m) ["id"; "nobody"] = Exited p ->
  returncode p = 0 ->
  spawn h (S (spawned m)) ["getent"; "group"; "nobody"] = NoSuchCommand ->
  get_nobody_user_group h m =
    (Raise FileNotFoundError, with_spawned (S (S (spawned m))) m).
Proof.
  intros Hid Hp Hsp. unfold get_nobody_user_group. simpl.
  unfold bind, nobody_probe, try_except, bind, subprocess_run.
  rewrite Hid, Hp. simpl. now rewrite Hsp.
Qed.

Lemma service_probe_not_found_propagates h m :
  spawn h (spawned m) ["systemctl"; "list-unit-files"; "smb.service"]
    = NoSuchCommand ->
  get_samba_service_names h m =
    (Raise FileNotFoundError, with_spawned (S (spawned m)) m).
Proof.
  intros Hsp. unfold get_samba_service_names. simpl.
  unfold bind, service_probe, try_except, bind, subprocess_run. simpl.
  change ("smb" +:+ ".service") with "smb.service". now rewrite Hsp.
Qed.

(** C2, as the code has it: on a host that answers a command the same way
    each time and on which the probing commands can be started, each
    cascade is the resolver of the specification over its list of probes.
    [get_nobody_user_group] returns the first of nobody:nobody,
    nobody:nogroup, nobody:wheel and nfsnobody:nfsnobody whose user and
    group both exist, and otherwise its terminal pair (the current user
    with its primary group, or root and root).  [get_samba_service_names]
    has seven probes: the unit files of smb, smbd, samba and samba again
    asked for by name, then the names smb.service, smbd.service and
    samba.service looked for in the listing of the pattern query, which
    returns smb and nmb, smbd and nmbd, or samba alone; smbd and nmbd are
    the default when none of the seven holds.  The resolver returns the
    result of the first probe that holds, whatever follows it, and the
    fallback when none holds.  Where the command of a first probe cannot
    be started the cascade returns nothing: it raises
    [FileNotFoundError]. *)
Theorem cascades_return_first_match (h : host) (m : machine) :
  (steady h ->
   installed h "id" -> installed h "getent" ->
   fst (get_nobody_user_group h m) =
     Ret (resolve (nobody_probes h) (nobody_fallback h))
   /\ (forall pair, first_match (nobody_probes h) pair ->
                    fst (get_nobody_user_group h m) = Ret pair)
   /\ (no_match (nobody_probes h) ->
       fst (get_nobody_user_group h m) = Ret (nobody_fallback h)))
  /\ (steady h ->
      installed h "systemctl" ->
      fst (get_samba_service_names h m) =
        Ret (resolve (service_probes h) ("smbd", Some "nmbd"))
      /\ (forall names, first_match (service_probes h) names ->
                        fst (get_samba_service_names h m) = Ret names)
      /\ (no_match (service_probes h) ->
          fst (get_samba_service_names h m) = Ret ("smbd", Some "nmbd"))
      /\ (no_match (probes_by_name h) ->
          fst (get_samba_service_names h m) =
            Ret (resolve (probes_in_listing h) ("smbd", Some "nmbd"))))
  /\ (spawn h (spawned m) ["id"; "nobody"] = NoSuchCommand ->
      get_nobody_user_group h m =
        (Raise FileNotFoundError, with_spawned (S (spawned m)) m))
  /\ (forall p,
         spawn h (spawned m) ["id"; "nobody"] = Exited p ->
         returncode p = 0 ->
         spawn h (S (spawned m)) ["getent"; "group"; "nobody"] = NoSuchCommand ->
         get_nobody_user_group h m =
           (Raise FileNotFoundError, with_spawned (S (S (spawned m))) m))
  /\ (spawn h (spawned m) ["systemctl"; "list-unit-files"; "smb.service"]
        = NoSuchCommand ->
      get_samba_service_names h m =
        (Raise FileNotFoundError, with_spawned (S (spawned m)) m)).
Proof.
  split; [|split; [|split; [|split]]].
  - intros St Hid Hge.
    assert (Hn : fst (get_nobody_user_group h m) =
                 Ret (resolve (nobody_probes h) (nobody_fallback h))).
    { exact (nobody_cascade h combinations m St Hid Hge). }
    split; [done|]. split.
    + intros pair Hp. now rewrite Hn, (resolve_first_match _ _ _ Hp).
    + intros Hp. now rewrite Hn, (resolve_no_match _ _ Hp).
  - intros St Hsys.
    assert (Hs : fst (get_samba_service_names h m) =
                 Ret (resolve (service_probes h) ("smbd", Some "nmbd"))).
    { unfold service_probes. rewrite resolve_app.
      exact (service_cascade h service_combinations m St Hsys). }
    split; [done|]. split; [|split].
    + intros names Hp. now rewrite Hs, (resolve_first_match _ _ _ Hp).
    + intros Hp. now rewrite Hs, (resolve_no_match _ _ Hp).
    + intros Hp. rewrite Hs. unfold service_probes.
      now rewrite resolve_app, (resolve_no_match _ _ Hp).
  - apply nobody_probe_not_found_propagates.
  - apply group_probe_not_found_propagates.
  - apply service_probe_not_found_propagates.
Qed.

(** C2 fails on [get_samba_service_names]: on a host with systemd where
    no unit file is found by name and the pattern query lists
    docker-samba.service, the function returns samba alone, which is
    neither one of its four combinations nor the default; and on a host
    without [systemctl] it does fail. *)
Lemma samba_alone_is_no_listed_combination :
  (let h := host_with_docker_samba in
   steady h
   /\ installed h "systemctl"
   /\ (forall services, services ∈ service_combinations ->
                        unit_listed h (smb services) = false)
   /\ fst (get_samba_service_names h (boot ∅)) = Ret ("samba", None)
   /\ (forall services, services ∈ service_combinations ->
                        ("samba", None) <> (smb services, Some (nmb services)))
   /\ ("samba", @None string) <> ("smbd", Some "nmbd"))
  /\ fst (get_samba_service_names host_without_systemctl (boot ∅))
     = Raise FileNotFoundError.
Proof.
  split; [|vm_compute; reflexivity].
  split; [intros n cmd; reflexivity|].
  split; [intros n args; discriminate|].
  split.
  { intros services Hin. unfold service_combinations in Hin.
    repeat (apply elem_of_cons in Hin as [-> | Hin]); try (vm_compute; reflexivity).
    now apply elem_of_nil in Hin. }
  split; [vm_compute; reflexivity|].
  split; [|discriminate].
  intros services _. discriminate.
Qed.

(** C5, on the code: a probe whose command is not installed is not taken
    as false.  Without [getent], [get_nobody_user_group] raises
    [FileNotFoundError] at its first probe instead of going on to the next
    pair or to its terminal pair; without [systemctl],
    [get_samba_service_names] raises it instead of returning smbd and
    nmbd. *)
Theorem missing_probe_command_is_not_absorbed :
  fst (get_nobody_user_group host_without_getent (boot ∅)) = Raise FileNotFoundError
  /\ fst (get_samba_service_names host_without_systemctl (boot ∅))
     = Raise FileNotFoundError.
Proof. split; reflexivity. Qed.

(** The probe of [configure_firewall] for [firewall-cmd] does take a
    missing command as false, and the cascade goes on to ufw. *)
Example firewall_cmd_probe_is_absorbed :
  fst (configure_firewalld host_without_firewall_cmd (boot ∅)) = Ret None
  /\ fst (configure_firewall host_without_firewall_cmd (boot ∅)) = Ret true.
Proof. split; reflexivity. Qed.

(** ** The theorems at work on the sample hosts *)

Example parse_sample_listing : parse_ip_addr sample_listing = sample_interfaces.
Proof. vm_compute. reflexivity. Qed.

Lemma sample_detection console_script n :
  detect (sample_host console_script) n = (Ret sample_interfaces, S n).
Proof.
  unfold detect, get_network_interfaces, try_except, bind, subprocess_run, ret.
  simpl. rewrite parse_sample_listing. reflexivity.
Qed.

Lemma sample_first : sample_interfaces !! 0%nat =
  Some {| name := "eth0"; ip := "192.168.1.10"; cidr := "192.168.1.10/24" |}.
Proof. reflexivity. Qed.

Lemma sample_second : sample_interfaces !! 1%nat =
  Some {| name := "wlan0"; ip := "192.168.1.11"; cidr := "192.168.1.11/24" |}.
Proof. reflexivity. Qed.

Lemma timeout_selects_default_witness :
  quiet_for (sample_host quiet_console) (waited (boot ∅)) 60
  /\ (exists m',
        select_network_binding (sample_host quiet_console) (boot ∅) = (Ret tt, m')
        /\ bind_interfaces (self m') = Some "192.168.1.10")
  /\ (exists m',
        select_smb_version (sample_host quiet_console) (boot ∅) = (Ret tt, m')
        /\ smb_min_protocol (self m') = "NT1").
Proof.
  assert (Hq : quiet_for (sample_host quiet_console) (waited (boot ∅)) 60)
    by (intros i _; reflexivity).
  split; [exact Hq|].
  destruct (timeout_selects_default (sample_host quiet_console) (boot ∅) Hq)
    as [Hif Hsmb].
  split.
  - destruct (Hif sample_interfaces 1%nat sample_interfaces 2%nat
                {| name := "eth0"; ip := "192.168.1.10"; cidr := "192.168.1.10/24" |}
                (sample_detection _ _) sample_first (sample_detection _ _))
      as (selected & m' & _ & Hv & Hrun & Hb & _).
    exists m'. split; [exact Hrun|]. rewrite Hb, Hv. reflexivity.
  - destruct Hsmb as (selected & m' & _ & Hrun & _ & _ & Hmin & _).
    exists m'. split; [exact Hrun | exact Hmin].
Defined.

Lemma key_2_follows_the_menu_numbering_witness :
  let h := sample_host (typing 3 "2
") in
  has_select h = true
  /\ smb_reaches h (boot ∅) 3
  /\ (exists m',
        select_network_binding h (boot ∅) = (Ret tt, m')
        /\ bind_interfaces (self m') = Some "192.168.1.11"
        /\ waited m' = 4%nat)
  /\ (exists m',
        select_smb_version h (boot ∅) = (Ret tt, m')
        /\ smb_min_protocol (self m') = "SMB3"
        /\ waited m' = 4%nat).
Proof.
  intros h.
  assert (Hreach : smb_reaches h (boot ∅) 3).
  { exists 3000. split; reflexivity. }
  split; [reflexivity|]. split; [exact Hreach|].
  destruct (key_2_follows_the_menu_numbering h (boot ∅) 3 "2
" eq_refl eq_refl eq_refl) as [Hif Hsmb].
  split.
  - destruct (Hif sample_interfaces 1%nat sample_interfaces 2%nat
                {| name := "wlan0"; ip := "192.168.1.11"; cidr := "192.168.1.11/24" |}
                (sample_detection _ _) eq_refl sample_second (sample_detection _ _))
      as (selected & m' & _ & _ & Hv & Hrun & Hb & Hw).
    + lia.
    + intros i Hi. destruct i as [|[|[|i]]]; [reflexivity..|lia].
    + exists m'. split; [exact Hrun|]. rewrite Hb, Hv. split; [reflexivity|exact Hw].
  - destruct (Hsmb Hreach) as (m' & _ & Hrun & Hmin & _ & Hw).
    exists m'. split; [exact Hrun|]. split; [exact Hmin | exact Hw].
Defined.

Lemma malformed_line_resolution_witness :
  (let h := sample_host (typing 3 "9
") in
   malformed h 1 (length (interface_options sample_interfaces)) "9"
   /\ malformed h 0 (length smb_options) "9"
   /\ (exists m',
         select_network_binding h (boot ∅) = (Ret tt, m')
         /\ bind_interfaces (self m') = Some "192.168.1.10")
   /\ (exists m',
         select_smb_version h (boot ∅) = (Ret tt, m')
         /\ smb_min_protocol (self m') = "NT1"))
  /\ (let h := sample_host (typing 3 "
") in
      polls_past (select_network_binding h) (boot ∅) 3
      /\ smb_resolves_to h (boot ∅) 0)
  /\ (let h := sample_host (garbled 3) in
      fst (select_network_binding h (boot ∅)) = Raise UnicodeDecodeError
      /\ fst (select_smb_version h (boot ∅)) = Raise UnicodeDecodeError).
Proof.
  assert (Hreach : forall script,
             (forall i, (i < 3)%nat -> script i = Quiet 0) ->
             smb_reaches (sample_host script) (boot ∅) 3).
  { intros script Hq. exists 3000. split; [|reflexivity].
    simpl. rewrite !Hq by lia. reflexivity. }
  assert (Hgo : forall script,
             (forall i, (i < 3)%nat -> script i = Quiet 0) ->
             forall i, (i < 3)%nat ->
               interface_goes_on (sample_host script)
                 (waits (sample_host script) (waited (boot ∅) + i)) = true).
  { intros script Hq i Hi. simpl. now rewrite Hq. }
  assert (Hq : forall (e : wait_event) i,
             (i < 3)%nat -> (if (i =? 3)%nat then e else Quiet 0) = Quiet 0).
  { intros e i Hi. destruct i as [|[|[|i]]]; [reflexivity..|lia]. }
  split; [|split].
  - intros h.
    assert (Hbad1 : malformed h 1 (length (interface_options sample_interfaces)) "9").
    { right. exists 9. split; [reflexivity|]. simpl. lia. }
    assert (Hbad0 : malformed h 0 (length smb_options) "9").
    { right. exists 9. split; [reflexivity|]. simpl. lia. }
    split; [exact Hbad1|]. split; [exact Hbad0|].
    destruct (malformed_line_resolution h (boot ∅) 3 eq_refl) as [Hline _].
    destruct (Hline "9
" eq_refl) as [Hif Hsmb].
    split.
    + destruct (Hif sample_interfaces 1%nat sample_interfaces 2%nat
                  {| name := "eth0"; ip := "192.168.1.10"; cidr := "192.168.1.10/24" |}
                  (sample_detection _ _) sample_first (sample_detection _ _)
                  ltac:(lia) (Hgo _ (Hq _))) as [Htaken _].
      destruct (Htaken eq_refl Hbad1) as (selected & m' & why & _ & Hv & Hrun & Hb & _).
      exists m'. split; [exact Hrun|]. rewrite Hb, Hv. reflexivity.
    + destruct (Hsmb (Hreach _ (Hq _)) Hbad0) as (m' & _ & Hrun & Hmin & _).
      exists m'. split; [exact Hrun | exact Hmin].
  - intros h.
    destruct (malformed_line_resolution h (boot ∅) 3 eq_refl) as [Hline _].
    destruct (Hline "
" eq_refl) as [Hif Hsmb].
    split.
    + destruct (Hif sample_interfaces 1%nat sample_interfaces 2%nat
                  {| name := "eth0"; ip := "192.168.1.10"; cidr := "192.168.1.10/24" |}
                  (sample_detection _ _) sample_first (sample_detection _ _)
                  ltac:(lia) (Hgo _ (Hq _))) as [_ Hblank].
      destruct (Hblank eq_refl) as [_ Hpast]. apply Hpast. lia.
    + destruct (Hsmb (Hreach _ (Hq _))) as (m' & Hres & _); [left; reflexivity|].
      exact Hres.
  - intros h.
    destruct (malformed_line_resolution h (boot ∅) 3 eq_refl) as [_ Hgarbled].
    destruct (Hgarbled eq_refl) as [Hif Hsmb].
    split.
    + destruct (Hif sample_interfaces 1%nat (sample_detection _ _)
                  ltac:(discriminate) ltac:(lia) (Hgo _ (Hq _))) as (t & ->).
      reflexivity.
    + destruct (Hsmb (Hreach _ (Hq _))) as (t & ->). reflexivity.
Defined.

Lemma interrupt_selects_default_witness :
  let h := sample_host (interrupting 2) in
  waits h 2 = Interrupted Sig_KeyboardInterrupt
  /\ smb_reaches h (boot ∅) 2
  /\ (exists m',
        select_network_binding h (boot ∅) = (Ret tt, m')
        /\ bind_interfaces (self m') = Some "192.168.1.10")
  /\ (exists m',
        select_smb_version h (boot ∅) = (Ret tt, m')
        /\ smb_min_protocol (self m') = "NT1").
Proof.
  intros h.
  assert (Hreach : smb_reaches h (boot ∅) 2).
  { exists 2000. split; reflexivity. }
  split; [reflexivity|]. split; [exact Hreach|].
  destruct (interrupt_selects_default h (boot ∅) 2 Sig_KeyboardInterrupt eq_refl)
    as [Hif Hsmb].
  split.
  - destruct (Hif sample_interfaces 1%nat sample_interfaces 2%nat
                {| name := "eth0"; ip := "192.168.1.10"; cidr := "192.168.1.10/24" |}
                (sample_detection _ _) sample_first (sample_detection _ _))
      as (selected & m' & _ & Hv & Hrun & Hb & _).
    + lia.
    + intros i Hi. destruct i as [|[|i]]; [reflexivity..|lia].
    + exists m'. split; [exact Hrun|]. rewrite Hb, Hv. reflexivity.
  - destruct (Hsmb Hreach) as (m' & _ & Hrun & Hmin & _).
    exists m'. split; [exact Hrun | exact Hmin].
Defined.

Lemma polling_stops_on_a_line_witness :
  (let h := sample_host (typing 3 "2
") in
   has_select h = true
   /\ waits h 3 = Typed "2
"
   /\ smb_reaches h (boot ∅) 3
   /\ (exists m', interface_countdown h (boot ∅) = (Ret "2", m')
                  /\ waited m' = 4%nat)
   /\ (exists m', smb_countdown h 0 (boot ∅) = (Ret "2", m')
                  /\ waited m' = 4%nat))
  /\ (let h := sample_host (typing 3 "
") in
      waits h 3 = Typed "
"
      /\ polls_past (interface_countdown h) (boot ∅) 3
      /\ (exists m', smb_countdown h 0 (boot ∅) = (Ret EmptyString, m')
                     /\ waited m' = 4%nat)
      /\ ~ polls_past (smb_countdown h 0) (boot ∅) 3).
Proof.
  assert (Hreach : forall raw, smb_reaches (sample_host (typing 3 raw)) (boot ∅) 3).
  { intros raw. exists 3000. split; reflexivity. }
  assert (Hgo : forall raw i,
             (i < 3)%nat ->
             interface_goes_on (sample_host (typing 3 raw))
               (waits (sample_host (typing 3 raw)) (waited (boot ∅) + i)) = true).
  { intros raw i Hi. destruct i as [|[|[|i]]]; [reflexivity..|lia]. }
  split.
  - intros h.
    split; [reflexivity|]. split; [reflexivity|]. split; [apply Hreach|].
    destruct (polling_stops_on_a_line h (boot ∅) 3 "2
" eq_refl eq_refl) as [Hif Hsmb].
    split.
    + destruct (Hif ltac:(lia) (Hgo _)) as [Hline _].
      destruct (Hline eq_refl) as (m' & Hrun & Hw & _).
      exists m'. split; [exact Hrun | exact Hw].
    + destruct (Hsmb (Hreach _)) as (m' & Hrun & Hw & _).
      exists m'. split; [exact Hrun | exact Hw].
  - intros h. split; [reflexivity|].
    destruct (polling_stops_on_a_line h (boot ∅) 3 "
" eq_refl eq_refl) as [Hif Hsmb].
    split.
    + destruct (Hif ltac:(lia) (Hgo _)) as [_ Hblank].
      apply Hblank; [reflexivity | lia].
    + destruct (Hsmb (Hreach _)) as (m' & Hrun & Hw & Hstop).
      split; [|exact Hstop].
      exists m'. split; [exact Hrun | exact Hw].
Defined.

Lemma no_interface_is_fatal_witness :
  (detect offline_host (spawned (boot ∅)) = (Ret [], 1%nat)
   /\ fst (select_network_binding offline_host (boot ∅)) = Raise (SystemExit 1)
   /\ console (snd (select_network_and_protocol offline_host (boot ∅)))
      = [NoInterfacesDetected])
  /\ (detect host_without_ip (spawned (boot ∅)) = (Raise FileNotFoundError, 1%nat)
      /\ fst (select_network_and_protocol host_without_ip (boot ∅))
         = Raise FileNotFoundError
      /\ console (snd (select_network_and_protocol host_without_ip (boot ∅))) = [])
  /\ (let h := sample_host (garbled 2) in
      waits h 2 = Undecodable
      /\ fst (select_network_and_protocol h (boot ∅)) = Raise UnicodeDecodeError
      /\ console (snd (select_network_and_protocol h (boot ∅))) = []
      /\ fst (select_smb_version h (boot ∅)) = Raise UnicodeDecodeError).
Proof.
  split; [|split].
  - assert (Hd : detect offline_host (spawned (boot ∅)) = (Ret [], 1%nat))
      by reflexivity.
    split; [exact Hd|].
    destruct (no_interface_is_fatal offline_host (boot ∅)) as [Hexit _].
    destruct (Hexit 1%nat Hd) as [Hrun Hsetup].
    rewrite Hrun, Hsetup. split; reflexivity.
  - assert (Hd : detect host_without_ip (spawned (boot ∅))
                 = (Raise FileNotFoundError, 1%nat)) by reflexivity.
    split; [exact Hd|].
    destruct (no_interface_is_fatal host_without_ip (boot ∅)) as (_ & Hmissing & _).
    destruct (Hmissing 1%nat Hd) as [_ Hsetup].
    rewrite Hsetup. split; reflexivity.
  - intros h. split; [reflexivity|].
    destruct (no_interface_is_fatal h (boot ∅)) as (_ & _ & Hgarbled & _).
    destruct (Hgarbled 2%nat eq_refl eq_refl) as [Hif Hsmb].
    destruct (Hif sample_interfaces 1%nat (sample_detection _ _)
                ltac:(discriminate) ltac:(lia)) as (t & _ & Hsetup).
    { intros i Hi. destruct i as [|[|i]]; [reflexivity..|lia]. }
    destruct Hsmb as (t' & Hrun).
    { exists 2000. split; reflexivity. }
    rewrite Hsetup, Hrun. repeat split.
Defined.

Lemma binding_is_set_on_return_witness :
  let h := sample_host quiet_console in
  let m' := snd (select_network_binding h (boot ∅)) in
  select_network_binding h (boot ∅) = (Ret tt, m')
  /\ exists i nm,
       i ∈ sample_interfaces
       /\ bind_interfaces (self m') = Some (ip i)
       /\ bind_interface_name (self m') = Some nm
       /\ Py.truthy nm = true.
Proof.
  intros h m'.
  assert (Hrun : select_network_binding h (boot ∅) = (Ret tt, m'))
    by (vm_compute; reflexivity).
  split; [exact Hrun|].
  destruct (binding_is_set_on_return h (boot ∅) m' Hrun)
    as (interfaces & n1 & interfaces_data & n2 & i & nm
        & Hd & _ & Hi & Hb & Hn & Ht & _).
  assert (Hifs : interfaces = sample_interfaces).
  { rewrite (sample_detection quiet_console) in Hd. now injection Hd as <- _. }
  rewrite Hifs in Hi.
  exists i, nm. split; [exact Hi|]. split; [exact Hb|]. split; [exact Hn | exact Ht].
Defined.

Lemma backup_is_written_once_witness :
  let h := sample_host quiet_console in
  let m := boot disk_with_config in
  let m1 := snd (backup_samba_config h m) in
  backup_samba_config h m = (Ret tt, m1)
  /\ files m !! backup_config (self m) = None
  /\ files m1 !! backup_config (self m) = Some "[global]"
  /\ exists m2, backup_samba_config h m1 = (Ret tt, m2) /\ files m2 = files m1.
Proof.
  intros h m m1.
  assert (Hrun : backup_samba_config h m = (Ret tt, m1))
    by (vm_compute; reflexivity).
  split; [exact Hrun|]. split; [reflexivity|].
  destruct (backup_is_written_once h m) as (_ & _ & _ & Hret).
  destruct (Hret m1 Hrun) as [Hcopy Htwice].
  split; [|exact Htwice].
  rewrite Hcopy; [reflexivity | reflexivity | eexists; reflexivity].
Defined.

Lemma cascades_return_first_match_witness :
  (let h := sample_host quiet_console in
   steady h
   /\ installed h "id" /\ installed h "getent" /\ installed h "systemctl"
   /\ fst (get_nobody_user_group h (boot ∅)) = Ret ("nobody", "nogroup")
   /\ fst (get_samba_service_names h (boot ∅)) = Ret ("smbd", Some "nmbd"))
  /\ (let h := host_with_docker_samba in
      no_match (probes_by_name h)
      /\ fst (get_samba_service_names h (boot ∅)) = Ret ("samba", None))
  /\ fst (get_samba_service_names host_without_systemctl (boot ∅))
     = Raise FileNotFoundError.
Proof.
  split; [|split].
  - intros h.
    assert (St : steady h) by (intros n cmd; reflexivity).
    assert (Hi : forall tool, installed h tool) by (intros tool n args; discriminate).
    split; [exact St|]. split; [apply Hi|]. split; [apply Hi|]. split; [apply Hi|].
    destruct (cascades_return_first_match h (boot ∅)) as (Hnobody & Hservice & _).
    destruct (Hnobody St (Hi _) (Hi _)) as (Hn & _).
    destruct (Hservice St (Hi _)) as (Hs & _).
    rewrite Hn, Hs. split; reflexivity.
  - intros h.
    assert (St : steady h) by (intros n cmd; reflexivity).
    assert (Hi : installed h "systemctl") by (intros n args; discriminate).
    assert (Hno : no_match (probes_by_name h)) by (repeat constructor).
    split; [exact Hno|].
    destruct (cascades_return_first_match h (boot ∅)) as (_ & Hservice & _).
    destruct (Hservice St Hi) as (_ & _ & _ & Hlisting).
    rewrite (Hlisting Hno). reflexivity.
  - destruct (cascades_return_first_match host_without_systemctl (boot ∅))
      as (_ & _ & _ & _ & Hmissing).
    rewrite Hmissing; reflexivity.
Defined.
